(** * create-pr-from-jira: a shallow embedding of the two entry points

    The repository holds two near-duplicate [main] packages:
    - the entry point that discovers the default branch with
      [git symbolic-ref] and opens a draft pull request (module [Discover]);
    - [cmd/cli/pr/main.go], whose [-base] flag defaults to ["main"]
      (module [CmdCliPr]).

    Go strings are byte strings, modelled by [string]; a Go [error] value
    is its message, [None] standing for [nil]; a [*string] is an
    [option string], [None] standing for the nil pointer.  Everything the
    process does to the outside world (spawning [git], HTTP round trips,
    lines on standard output) is recorded in a trace. *)

From Stdlib Require Import String Ascii List ZArith Bool Arith Lia.
Import ListNotations.
Open Scope list_scope.
Open Scope string_scope.

(** ** The functions of Go's [strings] package used by the program *)

Module GoStrings.

(** [strings.HasPrefix]: [len(s) >= len(prefix) && s[:len(prefix)] == prefix]. *)
Definition HasPrefix (s prefix : string) : bool :=
  (String.length prefix <=? String.length s)%nat
  && String.eqb (substring 0 (String.length prefix) s) prefix.

(** [strings.HasSuffix]:
    [len(s) >= len(suffix) && s[len(s)-len(suffix):] == suffix]. *)
Definition HasSuffix (s suffix : string) : bool :=
  (String.length suffix <=? String.length s)%nat
  && String.eqb (substring (String.length s - String.length suffix) (String.length suffix) s) suffix.

(** [strings.TrimSuffix]: [s[:len(s)-len(suffix)]] when [s] ends with
    [suffix], [s] itself otherwise.  At most one copy is removed. *)
Definition TrimSuffix (s suffix : string) : string :=
  if HasSuffix s suffix
  then substring 0 (String.length s - String.length suffix) s
  else s.

(** [strings.Split(s, sep)] for a one-byte separator, which is what both
    call sites pass (["/"] and [":"]).  The result always has one more
    element than there are separators in [s]. *)
Fixpoint Split (s : string) (sep : ascii) : list string :=
  match s with
  | EmptyString => [EmptyString]
  | String c s' =>
      if Ascii.eqb c sep then EmptyString :: Split s' sep
      else match Split s' sep with
           | [] => [String c EmptyString]
           | p :: ps => String c p :: ps
           end
  end.

(** White space as [unicode.IsSpace] sees it, on the UTF-8 encoding.
    One byte: tab, line feed, vertical tab, form feed, carriage return,
    space. *)
Definition isSpace1 (c : ascii) : bool :=
  let n := nat_of_ascii c in
  ((9 <=? n) && (n <=? 13) || (n =? 32))%nat.

(** Two bytes: U+0085 (C2 85) and U+00A0 (C2 A0). *)
Definition isSpace2 (c1 c2 : ascii) : bool :=
  let n1 := nat_of_ascii c1 in
  let n2 := nat_of_ascii c2 in
  ((n1 =? 194) && ((n2 =? 133) || (n2 =? 160)))%nat.

(** Three bytes: U+1680 (E1 9A 80), U+2000..U+200A (E2 80 80..8A),
    U+2028, U+2029 (E2 80 A8, A9), U+202F (E2 80 AF), U+205F (E2 81 9F)
    and U+3000 (E3 80 80). *)
Definition isSpace3 (c1 c2 c3 : ascii) : bool :=
  let n1 := nat_of_ascii c1 in
  let n2 := nat_of_ascii c2 in
  let n3 := nat_of_ascii c3 in
  ((n1 =? 225) && (n2 =? 154) && (n3 =? 128)
   || (n1 =? 226) && (n2 =? 128)
      && ((128 <=? n3) && (n3 <=? 138) || (n3 =? 168) || (n3 =? 169) || (n3 =? 175))
   || (n1 =? 226) && (n2 =? 129) && (n3 =? 159)
   || (n1 =? 227) && (n2 =? 128) && (n3 =? 128))%nat.

(** Drops the white-space runes at the front of [s].  [back] tells that
    [s] is read backwards (the bytes of a rune arrive last byte first),
    which is how the trailing white space is removed. *)
Fixpoint trimFront (back : bool) (s : string) : string :=
  match s with
  | EmptyString => EmptyString
  | String c1 s1 =>
      if isSpace1 c1 then trimFront back s1
      else
        match s1 with
        | EmptyString => s
        | String c2 s2 =>
            if (if back then isSpace2 c2 c1 else isSpace2 c1 c2)
            then trimFront back s2
            else
              match s2 with
              | EmptyString => s
              | String c3 s3 =>
                  if (if back then isSpace3 c3 c2 c1 else isSpace3 c1 c2 c3)
                  then trimFront back s3
                  else s
              end
        end
  end.

Definition reverse (s : string) : string :=
  string_of_list_ascii (rev (list_ascii_of_string s)).

(** [strings.TrimSpace]: all leading and trailing white space removed. *)
Definition TrimSpace (s : string) : string :=
  reverse (trimFront true (reverse (trimFront false s))).

(** The byte [c] lies in [lo..hi]. *)
Definition between (lo hi : nat) (c : ascii) : bool :=
  let n := nat_of_ascii c in
  ((lo <=? n) && (n <=? hi))%nat.

(** The well-formed UTF-8 encodings, as [utf8.DecodeRuneInString]
    accepts them: one byte below 0x80; C2..DF and a continuation byte;
    three bytes from E0..EF, without the overlong forms (E0 80..9F) and
    the surrogates (ED A0..BF); four bytes from F0..F4, without the
    overlong forms (F0 80..8F) and what lies beyond U+10FFFF
    (F4 90..BF). *)
Definition rune1 (c1 : ascii) : bool := between 0 127 c1.

Definition rune2 (c1 c2 : ascii) : bool :=
  between 194 223 c1 && between 128 191 c2.

Definition rune3 (c1 c2 c3 : ascii) : bool :=
  (between 224 224 c1 && between 160 191 c2
   || between 225 236 c1 && between 128 191 c2
   || between 237 237 c1 && between 128 159 c2
   || between 238 239 c1 && between 128 191 c2)
  && between 128 191 c3.

Definition rune4 (c1 c2 c3 c4 : ascii) : bool :=
  (between 240 240 c1 && between 144 191 c2
   || between 241 243 c1 && between 128 191 c2
   || between 244 244 c1 && between 128 143 c2)
  && between 128 191 c3 && between 128 191 c4.

(** [utf8.ValidString]: the string is a sequence of well-formed
    encodings. *)
Fixpoint ValidString (s : string) : bool :=
  match s with
  | EmptyString => true
  | String c1 s1 =>
      if rune1 c1 then ValidString s1
      else
        match s1 with
        | EmptyString => false
        | String c2 s2 =>
            if rune2 c1 c2 then ValidString s2
            else
              match s2 with
              | EmptyString => false
              | String c3 s3 =>
                  if rune3 c1 c2 c3 then ValidString s3
                  else
                    match s3 with
                    | EmptyString => false
                    | String c4 s4 =>
                        if rune4 c1 c2 c3 c4 then ValidString s4 else false
                    end
              end
        end
  end.

(** U+FFFD, the replacement character, in UTF-8. *)
Definition replacement (rest : string) : string :=
  String (ascii_of_nat 239) (String (ascii_of_nat 191) (String (ascii_of_nat 189) rest)).

(** The string that [encoding/json] transmits for the Go string [s]:
    the encoder walks [s] rune by rune, copies every well-formed
    encoding and writes U+FFFD for each byte at which
    [utf8.DecodeRuneInString] returns [RuneError] with width 1.  (The
    escapes it writes for quotes, control characters and the like decode
    back to the same characters.) *)
Fixpoint coerceUTF8 (s : string) : string :=
  match s with
  | EmptyString => EmptyString
  | String c1 s1 =>
      if rune1 c1 then String c1 (coerceUTF8 s1)
      else
        match s1 with
        | EmptyString => replacement (coerceUTF8 s1)
        | String c2 s2 =>
            if rune2 c1 c2 then String c1 (String c2 (coerceUTF8 s2))
            else
              match s2 with
              | EmptyString => replacement (coerceUTF8 s1)
              | String c3 s3 =>
                  if rune3 c1 c2 c3
                  then String c1 (String c2 (String c3 (coerceUTF8 s3)))
                  else
                    match s3 with
                    | EmptyString => replacement (coerceUTF8 s1)
                    | String c4 s4 =>
                        if rune4 c1 c2 c3 c4
                        then String c1 (String c2 (String c3 (String c4 (coerceUTF8 s4))))
                        else replacement (coerceUTF8 s1)
                    end
              end
        end
  end.

End GoStrings.

Import GoStrings.

(** ** The process and its environment *)

(** A Go [error]: [None] is [nil], [Some msg] an error whose [Error()]
    text is [msg]. *)
Definition error := option string.

(** A JSON value of the kinds the program sends; a string is held as
    the receiver decodes it. *)
Inductive jvalue :=
| JString (s : string)
| JBool (b : bool).

(** A JSON object, as [json.Marshal] lays out a struct: the members in
    field order, under the names of the struct tags. *)
Definition json : Type := list (string * jvalue).

(** The member [key] of a JSON object. *)
Fixpoint field (key : string) (j : json) : option jvalue :=
  match j with
  | [] => None
  | (k, v) :: rest => if String.eqb k key then Some v else field key rest
  end.

(** An [*http.Request] as the program fills it in. *)
Record Request := {
  Method : string;
  URL : string;
  BasicAuth : option (string * string);
  Header : list (string * string);
  ReqBody : option json
}.

(** An [*http.Response]: the status code, the status line
    (["404 Not Found"]), and what [io.ReadAll(resp.Body)] returns: the
    bytes read and its error. *)
Record Response := {
  StatusCode : Z;
  Status : string;
  RespBody : string;
  ReadErr : error
}.

(** Everything a run depends on and the repository does not define. *)
Record World := {
  (** the flags given on the command line, as [flag.Parse] reads them *)
  flags : string -> option string;
  (** the process environment *)
  environ : string -> option string;
  (** [exec.Command("git", args...).Output()]: standard output and error *)
  git : list string -> string * error;
  (** [client.Do(req)]: a response, or the text of the transport error *)
  http : Request -> Response + string;
  (** the error of [http.NewRequest(method, url, body)], [None] if the
      URL parses *)
  NewRequest_err : string -> string -> error;
  (** [json.Unmarshal(body, &issue)]: [issue.Fields.Summary] afterwards,
      and the error *)
  Unmarshal_JIRAIssue : string -> string * error;
  (** [json.Unmarshal(body, &prResp)]: [prResp.URL] afterwards, and the
      error *)
  Unmarshal_PullRequestResponse : string -> string * error
}.

(** What the process does to the outside, in order. *)
Inductive event :=
| Exec (name : string) (args : list string)
| Http (req : Request)
| Stdout (text : string).

(** How a computation ends: with a value, in [log.Fatalf] (the message
    goes to standard error and the process exits with status 1), or in a
    run-time panic (exit status 2). *)
Inductive outcome (A : Type) :=
| Done (a : A)
| Fatal (msg : string)
| Panic (msg : string).
Arguments Done {A} a.
Arguments Fatal {A} msg.
Arguments Panic {A} msg.

(** The exit status of the process whose [main] ended in [o]. *)
Definition exit_status {A} (o : outcome A) : Z :=
  match o with
  | Done _ => 0
  | Fatal _ => 1
  | Panic _ => 2
  end.

(** Computations: the trace so far goes in, the extended trace and the
    outcome come out. *)
Definition M (A : Type) : Type := list event -> list event * outcome A.

Definition ret {A} (a : A) : M A := fun t => (t, Done a).

Definition bind {A B} (m : M A) (k : A -> M B) : M B :=
  fun t =>
    match m t with
    | (t', Done a) => k a t'
    | (t', Fatal msg) => (t', Fatal msg)
    | (t', Panic msg) => (t', Panic msg)
    end.

Notation "x <- m ;; k" := (bind m (fun x => k))
  (at level 61, m at next level, right associativity).
Notation "' pat <- m ;; k" := (bind m (fun x => match x with pat => k end))
  (at level 61, pat pattern, m at next level, right associativity).
Notation "m ;;; k" := (bind m (fun _ => k))
  (at level 61, right associativity).

Definition emit (e : event) : M unit := fun t => ((t ++ [e])%list, Done tt).

(** [log.Fatalf] *)
Definition Fatalf {A} (msg : string) : M A := fun t => (t, Fatal msg).

Definition nilDeref : string :=
  "runtime error: invalid memory address or nil pointer dereference".

(** [*p] *)
Definition deref (p : option string) : M string :=
  fun t =>
    match p with
    | Some s => (t, Done s)
    | None => (t, Panic nilDeref)
    end.

(** [fmt.Printf] and [fmt.Println] *)
Definition Printf (text : string) : M unit := emit (Stdout text).

Definition nl : string := String (ascii_of_nat 10) "".

Definition Println (text : string) : M unit := Printf (text ++ nl).

(** [if err != nil { log.Fatalf(prefix + "%v", err) }] *)
Definition fatalIf (prefix : string) (err : error) : M unit :=
  match err with
  | Some e => Fatalf (prefix ++ e)
  | None => ret tt
  end.

(** The run of a [main]: the trace and the outcome, from the empty
    trace. *)
Definition run {A} (m : M A) : list event * outcome A := m [].

(** The event is an HTTP round trip. *)
Definition isHttp (e : event) : Prop :=
  match e with
  | Http _ => True
  | _ => False
  end.

(** The requests a trace sends with the given method. *)
Fixpoint requests (method : string) (t : list event) : list Request :=
  match t with
  | [] => []
  | Http req :: t' =>
      if String.eqb (Method req) method then req :: requests method t'
      else requests method t'
  | _ :: t' => requests method t'
  end.

(** ** The code the two entry points share word for word *)

Section Shared.

Variable w : World.

(** [os.Getenv]: the empty string for a variable that is not set. *)
Definition Getenv (key : string) : string :=
  match environ w key with
  | Some v => v
  | None => ""
  end.

(** The value of a flag declared with [flag.String(name, value, usage)]
    once [flag.Parse] has run. *)
Definition flag_String (name value : string) : string :=
  match flags w name with
  | Some v => v
  | None => value
  end.

(** [exec.Command("git", args...).Output()] *)
Definition Output (args : list string) : M (string * error) :=
  emit (Exec "git" args) ;;; ret (git w args).

(** [client.Do(req)] *)
Definition Do (req : Request) : M (Response + string) :=
  emit (Http req) ;;; ret (http w req).

(** The owner and repository that [getGitHubRepoDetails] reads off the
    trimmed remote URL (lines 51 to 68 of the entry point with
    discovery, 43 to 60 of [cmd/cli/pr/main.go]); [("", "")] when no
    branch assigns them.  [None] stands for an index out of range. *)
Definition ownerRepo (url : string) : option (string * string) :=
  if HasPrefix url "https://" then
    let parts := Split (TrimSuffix url ".git") "/" in
    if (2 <=? List.length parts)%nat then
      match nth_error parts (List.length parts - 2),
            nth_error parts (List.length parts - 1) with
      | Some owner, Some repo => Some (owner, repo)
      | _, _ => None
      end
    else Some ("", "")
  else if HasPrefix url "git@" then
    let parts := Split (TrimSuffix url ".git") ":" in
    if (List.length parts =? 2)%nat then
      match nth_error parts 1 with
      | Some path =>
          let subParts := Split path "/" in
          if (List.length subParts =? 2)%nat then
            match nth_error subParts 0, nth_error subParts 1 with
            | Some owner, Some repo => Some (owner, repo)
            | _, _ => None
            end
          else Some ("", "")
      | None => None
      end
    else Some ("", "")
  else Some ("", "").

(** [getJiraIssueTitle], the same text in both files. *)
Definition getJiraIssueTitle
    (jiraBaseURL jiraEmail jiraAPIToken issueKey : string)
    : M (option string * error) :=
  let url := jiraBaseURL ++ "/rest/api/3/issue/" ++ issueKey in
  match NewRequest_err w "GET" url with
  | Some e => ret (None, Some ("Error creating JIRA request: " ++ e))
  | None =>
      let req := {| Method := "GET"; URL := url;
                    BasicAuth := Some (jiraEmail, jiraAPIToken);
                    Header := [("Accept", "application/json")];
                    ReqBody := None |} in
      r <- Do req ;;
      match r with
      | inr e => ret (None, Some ("Error fetching JIRA issue: " ++ e))
      | inl resp =>
          if negb (StatusCode resp =? 200)%Z then
            ret (None, Some ("Failed to fetch JIRA issue. Status: " ++ Status resp))
          else
            match ReadErr resp with
            | Some e => ret (None, Some ("Error reading JIRA response body: " ++ e))
            | None =>
                let (summary, err) := Unmarshal_JIRAIssue w (RespBody resp) in
                match err with
                | Some e => ret (None, Some ("Error unmarshaling JIRA response: " ++ e))
                | None => ret (Some summary, None)
                end
            end
      end
  end.

(** The two messages of the configuration checks at the top of [main]. *)
Definition envMissing : string :=
  "Error: Required environment variables (JIRA_BASE_URL, JIRA_EMAIL, JIRA_API_TOKEN, GITHUB_TOKEN) are not set.".

Definition issueMissing : string :=
  "Error: The JIRA issue key must be provided using the -issue flag.".

End Shared.

(** ** The entry point that discovers the default branch *)

Module Discover.

(** [type PullRequest struct], with its [draft] member. *)
Record PullRequest := {
  Title : string;
  Body : string;
  Head : string;
  Base : string;
  Draft : bool
}.

(** [json.Marshal(pr)].  It cannot fail on a struct of strings and a
    bool, so the [err != nil] test that follows it in [main] never
    fires.  A string member is transmitted coerced to valid UTF-8. *)
Definition Marshal (pr : PullRequest) : json :=
  [ ("title", JString (coerceUTF8 (Title pr)));
    ("body", JString (coerceUTF8 (Body pr)));
    ("head", JString (coerceUTF8 (Head pr)));
    ("base", JString (coerceUTF8 (Base pr)));
    ("draft", JBool (Draft pr)) ].

Section Run.

Variable w : World.

Definition getGitHubRepoDetails
    : M (option string * option string * error) :=
  '(output, err) <- Output w ["config"; "--get"; "remote.origin.url"] ;;
  match err with
  | Some e => ret (None, None, Some ("failed to fetch remote origin URL: " ++ e))
  | None =>
      let url := TrimSpace output in
      match ownerRepo url with
      | None => fun t => (t, Panic "runtime error: index out of range")
      | Some (owner, repo) =>
          if String.eqb owner "" || String.eqb repo "" then
            ret (None, None,
                 Some ("could not parse owner and repo from URL: " ++ url))
          else ret (Some owner, Some repo, None)
      end
  end.

Definition getCurrentBranch : M (option string * error) :=
  '(output, err) <- Output w ["rev-parse"; "--abbrev-ref"; "HEAD"] ;;
  match err with
  | Some e => ret (None, Some ("failed to get current branch: " ++ e))
  | None => ret (Some (TrimSpace output), None)
  end.

Definition getDefaultBranch : M (option string * error) :=
  '(output, err) <- Output w ["symbolic-ref"; "refs/remotes/origin/HEAD"] ;;
  match err with
  | Some e => ret (None, Some ("failed to get default branch: " ++ e))
  | None =>
      let parts := Split (TrimSpace output) "/" in
      if (0 <? List.length parts)%nat then
        match nth_error parts (List.length parts - 1) with
        | Some last => ret (Some last, None)
        | None => fun t => (t, Panic "runtime error: index out of range")
        end
      else
        ret (None,
             Some ("could not parse default branch from output: " ++ output))
  end.

Definition main : M unit :=
  let jiraIssueKey := flag_String w "issue" "" in
  let baseBranch : option string := Some (flag_String w "base" "") in
  let jiraBaseURL := Getenv w "JIRA_BASE_URL" in
  let jiraEmail := Getenv w "JIRA_EMAIL" in
  let jiraAPIToken := Getenv w "JIRA_API_TOKEN" in
  let githubToken := Getenv w "GITHUB_TOKEN" in
  if String.eqb jiraBaseURL "" || String.eqb jiraEmail ""
     || String.eqb jiraAPIToken "" || String.eqb githubToken ""
  then Fatalf envMissing
  else if String.eqb jiraIssueKey "" then Fatalf issueMissing
  else
    '(sourceBranch, err) <- getCurrentBranch ;;
    '(baseBranch, err) <-
      (if match baseBranch with
          | None => true
          | Some b => String.eqb b ""
          end
       then getDefaultBranch
       else ret (baseBranch, err)) ;;
    fatalIf "Error getting current branch: " err ;;;
    source <- deref sourceBranch ;;
    Printf ("Using current branch as source branch: " ++ source ++ nl) ;;;
    '(githubOwner, githubRepo, err) <- getGitHubRepoDetails ;;
    fatalIf "Error fetching GitHub repo details: " err ;;;
    owner <- deref githubOwner ;;
    repo <- deref githubRepo ;;
    Printf ("GitHub Owner: " ++ owner ++ ", Repo: " ++ repo ++ nl) ;;;
    '(prTitle, err) <-
      getJiraIssueTitle w jiraBaseURL jiraEmail jiraAPIToken jiraIssueKey ;;
    fatalIf "Error fetching JIRA issue: " err ;;;
    title <- deref prTitle ;;
    Printf ("Fetched JIRA issue title: " ++ title ++ nl) ;;;
    owner <- deref githubOwner ;;
    repo <- deref githubRepo ;;
    let githubURL :=
      "https://api.github.com/repos/" ++ owner ++ "/" ++ repo ++ "/pulls" in
    title <- deref prTitle ;;
    head <- deref sourceBranch ;;
    base <- deref baseBranch ;;
    let pr := {| Title := "[" ++ jiraIssueKey ++ "] " ++ title;
                 Body := jiraBaseURL ++ "/browse/" ++ jiraIssueKey;
                 Head := head;
                 Base := base;
                 Draft := true |} in
    let prJSON := Marshal pr in
    fatalIf "Error creating GitHub request: "
            (NewRequest_err w "POST" githubURL) ;;;
    let req := {| Method := "POST"; URL := githubURL;
                  BasicAuth := None;
                  Header := [ ("Authorization", "Bearer " ++ githubToken);
                              ("Accept", "application/vnd.github+json");
                              ("X-GitHub-Api-Version", "2022-11-28") ];
                  ReqBody := Some prJSON |} in
    r <- Do w req ;;
    match r with
    | inr e => Fatalf ("Error sending GitHub PR request: " ++ e)
    | inl resp =>
        let body := RespBody resp in
        if (StatusCode resp =? 201)%Z then
          let (prRespURL, _) := Unmarshal_PullRequestResponse w body in
          Println "Pull request created successfully!" ;;;
          Println prRespURL
        else
          Fatalf ("Failed to create pull request. Status: " ++ Status resp
                  ++ ", Response: " ++ body)
    end.

End Run.

End Discover.

(** ** [cmd/cli/pr/main.go] *)

Module CmdCliPr.

(** [type PullRequest struct]; this file has no [draft] member. *)
Record PullRequest := {
  Title : string;
  Body : string;
  Head : string;
  Base : string
}.

(** [json.Marshal(pr)], which cannot fail on a struct of strings; a
    string member is transmitted coerced to valid UTF-8. *)
Definition Marshal (pr : PullRequest) : json :=
  [ ("title", JString (coerceUTF8 (Title pr)));
    ("body", JString (coerceUTF8 (Body pr)));
    ("head", JString (coerceUTF8 (Head pr)));
    ("base", JString (coerceUTF8 (Base pr))) ].

Section Run.

Variable w : World.

Definition getGitHubRepoDetails : M (string * string * error) :=
  '(output, err) <- Output w ["config"; "--get"; "remote.origin.url"] ;;
  match err with
  | Some e => ret ("", "", Some ("failed to fetch remote origin URL: " ++ e))
  | None =>
      let url := TrimSpace output in
      match ownerRepo url with
      | None => fun t => (t, Panic "runtime error: index out of range")
      | Some (owner, repo) =>
          if String.eqb owner "" || String.eqb repo "" then
            ret ("", "",
                 Some ("could not parse owner and repo from URL: " ++ url))
          else ret (owner, repo, None)
      end
  end.

Definition getCurrentBranch : M (string * error) :=
  '(output, err) <- Output w ["rev-parse"; "--abbrev-ref"; "HEAD"] ;;
  match err with
  | Some e => ret ("", Some ("failed to get current branch: " ++ e))
  | None => ret (TrimSpace output, None)
  end.

Definition main : M unit :=
  let jiraIssueKey := flag_String w "issue" "" in
  let baseBranch := flag_String w "base" "main" in
  let jiraBaseURL := Getenv w "JIRA_BASE_URL" in
  let jiraEmail := Getenv w "JIRA_EMAIL" in
  let jiraAPIToken := Getenv w "JIRA_API_TOKEN" in
  let githubToken := Getenv w "GITHUB_TOKEN" in
  if String.eqb jiraBaseURL "" || String.eqb jiraEmail ""
     || String.eqb jiraAPIToken "" || String.eqb githubToken ""
  then Fatalf envMissing
  else if String.eqb jiraIssueKey "" then Fatalf issueMissing
  else
    '(sourceBranch, err) <- getCurrentBranch ;;
    fatalIf "Error getting current branch: " err ;;;
    Printf ("Using current branch as source branch: " ++ sourceBranch ++ nl) ;;;
    '(githubOwner, githubRepo, err) <- getGitHubRepoDetails ;;
    fatalIf "Error fetching GitHub repo details: " err ;;;
    Printf ("GitHub Owner: " ++ githubOwner ++ ", Repo: " ++ githubRepo ++ nl) ;;;
    '(prTitle, err) <-
      getJiraIssueTitle w jiraBaseURL jiraEmail jiraAPIToken jiraIssueKey ;;
    fatalIf "Error fetching JIRA issue: " err ;;;
    title <- deref prTitle ;;
    Printf ("Fetched JIRA issue title: " ++ title ++ nl) ;;;
    let githubURL :=
      "https://api.github.com/repos/" ++ githubOwner ++ "/" ++ githubRepo
      ++ "/pulls" in
    title <- deref prTitle ;;
    let pr := {| Title := title;
                 Body := jiraBaseURL ++ "/browse/" ++ jiraIssueKey ++ ".";
                 Head := sourceBranch;
                 Base := baseBranch |} in
    let prJSON := Marshal pr in
    fatalIf "Error creating GitHub request: "
            (NewRequest_err w "POST" githubURL) ;;;
    let req := {| Method := "POST"; URL := githubURL;
                  BasicAuth := None;
                  Header := [ ("Authorization", "Bearer " ++ githubToken);
                              ("Content-Type", "application/json") ];
                  ReqBody := Some prJSON |} in
    r <- Do w req ;;
    match r with
    | inr e => Fatalf ("Error sending GitHub PR request: " ++ e)
    | inl resp =>
        if (StatusCode resp =? 201)%Z then
          Println "Pull request created successfully!"
        else
          let body := RespBody resp in
          Fatalf ("Failed to create pull request. Status: " ++ Status resp
                  ++ ", Response: " ++ body)
    end.

End Run.

End CmdCliPr.

(** ** Sample environments *)

Module Sample.

Definition lookup (table : list (string * string)) (key : string) : option string :=
  match find (fun kv => String.eqb (fst kv) key) table with
  | Some kv => Some (snd kv)
  | None => None
  end.

Definition env : list (string * string) :=
  [ ("JIRA_BASE_URL", "https://jira.example.com");
    ("JIRA_EMAIL", "dev@example.com");
    ("JIRA_API_TOKEN", "jira-token");
    ("GITHUB_TOKEN", "gh-token") ].

(** A repository on branch [feature], default branch [main], whose
    origin is [remote]; [revParse] is what [git rev-parse] returns. *)
Definition gitOf (revParse : string * error) (remote : string)
    (args : list string) : string * error :=
  match args with
  | ["rev-parse"; "--abbrev-ref"; "HEAD"] => revParse
  | ["symbolic-ref"; "refs/remotes/origin/HEAD"] =>
      ("refs/remotes/origin/main" ++ nl, None)
  | ["config"; "--get"; "remote.origin.url"] => (remote ++ nl, None)
  | _ => ("", Some "exit status 1")
  end.

Definition response (code : Z) (status body : string) : Response :=
  {| StatusCode := code; Status := status; RespBody := body; ReadErr := None |}.

(** JIRA answers every GET with [jira], GitHub every POST with [github]. *)
Definition httpOf (jira github : Response) (req : Request) : Response + string :=
  if String.eqb (Method req) "GET" then inl jira else inl github.

Definition world (fl env : list (string * string)) (revParse : string * error)
    (remote : string) (jira github : Response) : World :=
  {| flags := lookup fl;
     environ := lookup env;
     git := gitOf revParse remote;
     http := httpOf jira github;
     NewRequest_err := fun _ _ => None;
     Unmarshal_JIRAIssue := fun _ => ("Fix login bug", None);
     Unmarshal_PullRequestResponse :=
       fun _ => ("https://api.github.com/repos/acme/widgets/pulls/7", None) |}.

Definition ok200 : Response := response 200 "200 OK" "{...}".
Definition created : Response := response 201 "201 Created" "{...}".

(** Everything in order: the pull request is created. *)
Definition good (fl : list (string * string)) : World :=
  world fl env ("feature" ++ nl, None) "https://github.com/acme/widgets.git"
        ok200 created.

End Sample.

(** ** The vocabulary of the properties *)

(** [strings.IndexByte(s, c) >= 0]: the byte [c] occurs in [s]. *)
Fixpoint hasByte (c : ascii) (s : string) : bool :=
  match s with
  | EmptyString => false
  | String c' s' => Ascii.eqb c' c || hasByte c s'
  end.

(** The last of the segments of [s] between slashes. *)
Definition lastSegment (s : string) : string := List.last (Split s "/") "".

(** The JSON object a request carries. *)
Definition payload (req : Request) : json :=
  match ReqBody req with
  | Some j => j
  | None => []
  end.

Definition symbolicRef : list string := ["symbolic-ref"; "refs/remotes/origin/HEAD"].
Definition revParse : list string := ["rev-parse"; "--abbrev-ref"; "HEAD"].
Definition remoteURL : list string := ["config"; "--get"; "remote.origin.url"].

(** The trace spawns a [symbolic-ref] subprocess. *)
Definition spawnsSymbolicRef (tr : list event) : Prop :=
  exists name rest, In (Exec name ("symbolic-ref" :: rest)) tr.

(** The default branch as the symbolic ref of the remote HEAD gives it. *)
Definition discoveredBranch (w : World) : string :=
  lastSegment (TrimSpace (fst (git w symbolicRef))).

(** Every pull-request payload of the trace has [v] as its member [key]. *)
Definition posts (key : string) (v : jvalue) (tr : list event) : Prop :=
  forall req, In req (requests "POST" tr) -> field key (payload req) = Some v.

(** The run fetched [summary] from JIRA: its GET was answered by a
    response whose body decodes to that summary. *)
Definition fetched (w : World) (tr : list event) (summary : string) : Prop :=
  exists req resp,
    In req (requests "GET" tr)
    /\ http w req = inl resp
    /\ Unmarshal_JIRAIssue w (RespBody resp) = (summary, None).

(** The inputs a run requires. *)
Inductive required :=
| IssueKey
| EnvVar (name : string).

Definition requiredInputs : list required :=
  [ IssueKey; EnvVar "JIRA_BASE_URL"; EnvVar "JIRA_EMAIL";
    EnvVar "JIRA_API_TOKEN"; EnvVar "GITHUB_TOKEN" ].

(** The input is absent, as the program tests it. *)
Definition missing (w : World) (r : required) : Prop :=
  match r with
  | IssueKey => flag_String w "issue" "" = ""
  | EnvVar name => Getenv w name = ""
  end.

(** How a message would have to name the input. *)
Definition label (r : required) : string :=
  match r with
  | IssueKey => "issue"
  | EnvVar name => name
  end.

(** [strings.Contains(msg, what)] *)
Definition mentions (msg what : string) : bool :=
  match index 0 what msg with
  | Some _ => true
  | None => false
  end.

(** The message names every input that is missing. *)
Definition listsMissing (w : World) (msg : string) : Prop :=
  forall r, In r requiredInputs -> missing w r -> mentions msg (label r) = true.

(** One of the four environment variables is empty or not set. *)
Definition envIncomplete (w : World) : bool :=
  String.eqb (Getenv w "JIRA_BASE_URL") "" || String.eqb (Getenv w "JIRA_EMAIL") ""
  || String.eqb (Getenv w "JIRA_API_TOKEN") "" || String.eqb (Getenv w "GITHUB_TOKEN") "".

(** The two entry points. *)
Inductive entry :=
| DiscoverMain
| CmdCliPrMain.

(** The run of an entry point: its trace and its outcome. *)
Definition runOf (e : entry) (w : World) : list event * outcome unit :=
  match e with
  | DiscoverMain => run (Discover.main w)
  | CmdCliPrMain => run (CmdCliPr.main w)
  end.

(** GitHub answered the pull-request POST of the trace with [resp]. *)
Definition answered (w : World) (tr : list event) (resp : Response) : Prop :=
  exists req, In req (requests "POST" tr) /\ http w req = inl resp.

(** The remote URL that [git config] printed, white space trimmed. *)
Definition remoteIs (w : World) (url : string) : Prop :=
  exists output, git w remoteURL = (output, None) /\ TrimSpace output = url.

(** [getGitHubRepoDetails] returns [(owner, repo)] and no error, in both
    files. *)
Definition parses (w : World) (owner repo : string) : Prop :=
  forall t,
    snd (Discover.getGitHubRepoDetails w t) = Done (Some owner, Some repo, None)
    /\ snd (CmdCliPr.getGitHubRepoDetails w t) = Done (owner, repo, None).

(** [getGitHubRepoDetails] returns the parse error that names [url], in
    both files. *)
Definition rejects (w : World) (url : string) : Prop :=
  forall t,
    snd (Discover.getGitHubRepoDetails w t)
    = Done (None, None, Some ("could not parse owner and repo from URL: " ++ url))
    /\ snd (CmdCliPr.getGitHubRepoDetails w t)
       = Done ("", "", Some ("could not parse owner and repo from URL: " ++ url)).

Definition created : string := "Pull request created successfully!".

(** What an entry point prints last when GitHub answers 201 with
    [resp]. *)
Definition successLines (e : entry) (w : World) (resp : Response) : list event :=
  match e with
  | DiscoverMain =>
      [ Stdout (created ++ nl);
        Stdout (fst (Unmarshal_PullRequestResponse w (RespBody resp)) ++ nl) ]
  | CmdCliPrMain => [ Stdout (created ++ nl) ]
  end.

(** More sample environments. *)
Module Cases.

(** [git rev-parse] fails, [git symbolic-ref] succeeds, no [-base]. *)
Definition revParseFails : World :=
  Sample.world [("issue", "PROJ-42")] Sample.env ("", Some "exit status 128")
               "https://github.com/acme/widgets.git" Sample.ok200 Sample.created.

(** The remote has a single path segment after the host. *)
Definition singleSegment : World :=
  Sample.world [("issue", "PROJ-42")] Sample.env ("feature" ++ nl, None)
               "https://github.com/widgets" Sample.ok200 Sample.created.

(** The repository is called [widgets.git] and the remote URL carries
    no further suffix. *)
Definition dotGitName : World :=
  Sample.world [("issue", "PROJ-42")] Sample.env ("feature" ++ nl, None)
               "https://github.com/acme/widgets.git" Sample.ok200 Sample.created.

(** [-base ""] on the command line. *)
Definition emptyBase : World :=
  Sample.good [("issue", "PROJ-42"); ("base", "")].

(** The bytes [c a f E9]: Latin-1 for a name that ends in e acute, and
    not valid UTF-8. *)
Definition latin1Name : string := "caf" ++ String (ascii_of_nat 233) "".



(** JIRA does not know the issue. *)
Definition notFound : World :=
  Sample.world [("issue", "PROJ-42")] Sample.env ("feature" ++ nl, None)
               "https://github.com/acme/widgets.git"
               (Sample.response 404 "404 Not Found" "{}") Sample.created.

(** GitHub refuses the pull request. *)
Definition unprocessable : World :=
  Sample.world [("issue", "PROJ-42")] Sample.env ("feature" ++ nl, None)
               "https://github.com/acme/widgets.git" Sample.ok200
               (Sample.response 422 "422 Unprocessable Entity"
                                "{message: Validation Failed}").

(** Neither [JIRA_EMAIL] nor [-issue] is given. *)
Definition nothingGiven : World :=
  Sample.world []
               [ ("JIRA_BASE_URL", "https://jira.example.com");
                 ("JIRA_API_TOKEN", "jira-token");
                 ("GITHUB_TOKEN", "gh-token") ]
               ("feature" ++ nl, None)
               "https://github.com/acme/widgets.git" Sample.ok200 Sample.created.

End Cases.

(** ** More vocabulary: what a run looks like *)

(** The two checks at the top of [main] pass: the four environment
    variables and the issue key are all non-empty. *)
Definition configComplete (w : World) : bool :=
  negb (envIncomplete w) && negb (String.eqb (flag_String w "issue" "") "").

(** The request [getJiraIssueTitle] builds from the configuration. *)
Definition jiraRequest (w : World) : Request :=
  {| Method := "GET";
     URL := Getenv w "JIRA_BASE_URL" ++ "/rest/api/3/issue/"
            ++ flag_String w "issue" "";
     BasicAuth := Some (Getenv w "JIRA_EMAIL", Getenv w "JIRA_API_TOKEN");
     Header := [("Accept", "application/json")];
     ReqBody := None |}.

(** The pulls endpoint of a repository. *)
Definition githubURL (owner repo : string) : string :=
  "https://api.github.com/repos/" ++ owner ++ "/" ++ repo ++ "/pulls".

(** What the parser reads off the output of [git config]. *)
Definition remotePair (w : World) : option (string * string) :=
  ownerRepo (TrimSpace (fst (git w remoteURL))).

(** The current branch as [git rev-parse] prints it, trimmed. *)
Definition currentBranch (w : World) : string :=
  TrimSpace (fst (git w revParse)).

(** [req.Header.Get(key)] *)
Definition header (key : string) (req : Request) : option string :=
  match find (fun kv => String.eqb (fst kv) key) (Header req) with
  | Some kv => Some (snd kv)
  | None => None
  end.

(** The HTTP requests of a trace, in the order they were sent. *)
Fixpoint httpRequests (tr : list event) : list Request :=
  match tr with
  | [] => []
  | Http req :: tr' => req :: httpRequests tr'
  | _ :: tr' => httpRequests tr'
  end.

(** The subprocesses of a trace, in the order they were spawned. *)
Fixpoint subprocesses (tr : list event) : list (list string) :=
  match tr with
  | [] => []
  | Exec _ args :: tr' => args :: subprocesses tr'
  | _ :: tr' => subprocesses tr'
  end.

(** The text a trace writes to standard output. *)
Fixpoint stdout (tr : list event) : list string :=
  match tr with
  | [] => []
  | Stdout text :: tr' => text :: stdout tr'
  | _ :: tr' => stdout tr'
  end.

Definition isPanic {A} (o : outcome A) : bool :=
  match o with
  | Panic _ => true
  | _ => false
  end.

(** A helper returned a pointer and no error, or no pointer and an
    error. *)
Definition pointerXorError {A} (o : outcome (option A * error)) : Prop :=
  match o with
  | Done (Some _, None) => True
  | Done (None, Some _) => True
  | _ => False
  end.

(** The first byte of a string, and the last. *)
Definition firstByte (s : string) : option ascii :=
  match s with
  | EmptyString => None
  | String c _ => Some c
  end.

Fixpoint lastByte (s : string) : option ascii :=
  match s with
  | EmptyString => None
  | String c EmptyString => Some c
  | String _ s' => lastByte s'
  end.

(** The byte, if there is one, is not ASCII white space. *)
Definition notSpace (b : option ascii) : Prop :=
  match b with
  | Some c => isSpace1 c = false
  | None => True
  end.

(** More sample environments. *)
Module More.

(** A GitLab-style remote with a subgroup. *)
Definition nested : World :=
  Sample.world [("issue", "PROJ-42")] Sample.env ("feature" ++ nl, None)
               "https://gitlab.example.com/group/acme/widgets.git"
               Sample.ok200 Sample.created.

(** An SCP-style remote without the [.git] suffix. *)
Definition sshBare : World :=
  Sample.world [("issue", "PROJ-42")] Sample.env ("feature" ++ nl, None)
               "git@github.com:acme/widgets" Sample.ok200 Sample.created.

(** An SCP-style remote with a subgroup. *)
Definition sshNested : World :=
  Sample.world [("issue", "PROJ-42")] Sample.env ("feature" ++ nl, None)
               "git@gitlab.example.com:group/acme/widgets.git"
               Sample.ok200 Sample.created.

(** An [ssh://] remote. *)
Definition sshScheme : World :=
  Sample.world [("issue", "PROJ-42")] Sample.env ("feature" ++ nl, None)
               "ssh://git@github.com/acme/widgets.git"
               Sample.ok200 Sample.created.

(** A remote that ends in a slash. *)
Definition trailingSlash : World :=
  Sample.world [("issue", "PROJ-42")] Sample.env ("feature" ++ nl, None)
               "https://github.com/acme/widgets/"
               Sample.ok200 Sample.created.

(** [git rev-parse] fails and [-base release] is given. *)
Definition revParseFailsWithBase : World :=
  Sample.world [("issue", "PROJ-42"); ("base", "release")] Sample.env
               ("", Some "exit status 128")
               "https://github.com/acme/widgets.git" Sample.ok200 Sample.created.

(** GitHub cannot be reached. *)
Definition unreachable : World :=
  {| flags := Sample.lookup [("issue", "PROJ-42")];
     environ := Sample.lookup Sample.env;
     git := Sample.gitOf ("feature" ++ nl, None) "https://github.com/acme/widgets.git";
     http := fun req =>
               if String.eqb (Method req) "GET" then inl Sample.ok200
               else inr "dial tcp: connection refused";
     NewRequest_err := fun _ _ => None;
     Unmarshal_JIRAIssue := fun _ => ("Fix login bug", None);
     Unmarshal_PullRequestResponse := fun _ => ("", None) |}.

End More.

(** ** Lemmas on the string functions *)

Section StringFacts.

Lemma length_append (a b : string) :
  String.length (a ++ b) = String.length a + String.length b.
Proof. induction a as [|c a IH]; simpl; [reflexivity | now rewrite IH]. Qed.

Lemma substring_whole (s : string) : substring 0 (String.length s) s = s.
Proof. induction s as [|c s IH]; simpl; [reflexivity | now rewrite IH]. Qed.

Lemma substring_append_left (a b : string) :
  substring 0 (String.length a) (a ++ b) = a.
Proof.
  induction a as [|c a IH]; simpl.
  - now destruct b.
  - now rewrite IH.
Qed.

Lemma substring_append_right (a b : string) :
  substring (String.length a) (String.length b) (a ++ b) = b.
Proof.
  induction a as [|c a IH]; simpl; [apply substring_whole | exact IH].
Qed.

Lemma HasPrefix_append (p s : string) : HasPrefix (p ++ s) p = true.
Proof.
  unfold HasPrefix. rewrite substring_append_left, String.eqb_refl, length_append.
  rewrite andb_true_r. apply Nat.leb_le. lia.
Qed.

Lemma HasSuffix_append (a suffix : string) : HasSuffix (a ++ suffix) suffix = true.
Proof.
  unfold HasSuffix. rewrite length_append.
  replace (String.length a + String.length suffix - String.length suffix)
    with (String.length a) by lia.
  rewrite substring_append_right, String.eqb_refl, andb_true_r.
  apply Nat.leb_le. lia.
Qed.

Lemma TrimSuffix_append (a suffix : string) : TrimSuffix (a ++ suffix) suffix = a.
Proof.
  unfold TrimSuffix. rewrite HasSuffix_append, length_append.
  replace (String.length a + String.length suffix - String.length suffix)
    with (String.length a) by lia.
  apply substring_append_left.
Qed.

Lemma TrimSuffix_none (s suffix : string) :
  HasSuffix s suffix = false -> TrimSuffix s suffix = s.
Proof. unfold TrimSuffix. now intros ->. Qed.

Lemma eqb_length (a b : string) :
  String.length a <> String.length b -> String.eqb a b = false.
Proof.
  intros H. apply String.eqb_neq. intros ->. now apply H.
Qed.

(** [HasSuffix] read off the first byte: the whole string is the suffix,
    or the rest ends with it. *)
Lemma HasSuffix_cons (c : ascii) (s suffix : string) :
  HasSuffix (String c s) suffix
  = String.eqb (String c s) suffix || HasSuffix s suffix.
Proof.
  unfold HasSuffix.
  destruct (Nat.compare_spec (String.length suffix) (String.length (String c s)))
    as [E | L | G].
  - simpl String.length in *. rewrite E, Nat.leb_refl, Nat.sub_diag.
    change (substring 0 (S (String.length s)) (String c s))
      with (String c (substring 0 (String.length s) s)).
    rewrite substring_whole.
    replace (S (String.length s) <=? String.length s)%nat with false
      by (symmetry; apply Nat.leb_gt; lia).
    simpl. now rewrite orb_false_r.
  - simpl String.length in *.
    replace (String.length suffix <=? S (String.length s))%nat with true
      by (symmetry; apply Nat.leb_le; lia).
    replace (String.length suffix <=? String.length s)%nat with true
      by (symmetry; apply Nat.leb_le; lia).
    rewrite (eqb_length (String c s) suffix) by (simpl; lia).
    replace (S (String.length s) - String.length suffix)
      with (S (String.length s - String.length suffix)) by lia.
    reflexivity.
  - simpl String.length in *.
    replace (String.length suffix <=? S (String.length s))%nat with false
      by (symmetry; apply Nat.leb_gt; lia).
    replace (String.length suffix <=? String.length s)%nat with false
      by (symmetry; apply Nat.leb_gt; lia).
    rewrite (eqb_length (String c s) suffix) by (simpl; lia).
    reflexivity.
Qed.

End StringFacts.

(** ** Valid UTF-8 passes through [encoding/json] unchanged *)

Lemma coerceUTF8_valid (s : string) :
  ValidString s = true -> coerceUTF8 s = s.
Proof.
  remember (String.length s) as n eqn:Hn.
  revert s Hn. induction n as [n IH] using lt_wf_ind. intros s Hn.
  destruct s as [|c1 s1]; [reflexivity |].
  cbn [ValidString coerceUTF8]. destruct (rune1 c1).
  { intros H. f_equal. apply (IH (String.length s1)); [simpl in Hn; lia | reflexivity | exact H]. }
  destruct s1 as [|c2 s2]; [discriminate |]. destruct (rune2 c1 c2).
  { intros H. do 2 f_equal.
    apply (IH (String.length s2)); [simpl in Hn; lia | reflexivity | exact H]. }
  destruct s2 as [|c3 s3]; [discriminate |]. destruct (rune3 c1 c2 c3).
  { intros H. do 3 f_equal.
    apply (IH (String.length s3)); [simpl in Hn; lia | reflexivity | exact H]. }
  destruct s3 as [|c4 s4]; [discriminate |]. destruct (rune4 c1 c2 c3 c4);
    [| discriminate].
  intros H. do 4 f_equal.
  apply (IH (String.length s4)); [simpl in Hn; lia | reflexivity | exact H].
Qed.


Section SplitFacts.

Variable sep : ascii.

Lemma Split_nonempty (s : string) : (0 < List.length (Split s sep))%nat.
Proof.
  induction s as [|c s IH]; simpl; [lia |].
  destruct (Ascii.eqb c sep); simpl; [lia |].
  destruct (Split s sep); simpl; lia.
Qed.

Lemma Split_no_sep (s : string) : hasByte sep s = false -> Split s sep = [s].
Proof.
  induction s as [|c s IH]; simpl; [reflexivity |].
  intros H. apply orb_false_elim in H as [Hc Hs].
  now rewrite Hc, (IH Hs).
Qed.

Lemma Split_append (a b : string) :
  hasByte sep a = false ->
  Split (a ++ String sep b) sep = a :: Split b sep.
Proof.
  induction a as [|c a IH]; simpl.
  - intros _. now rewrite Ascii.eqb_refl.
  - intros H. apply orb_false_elim in H as [Hc Ha].
    now rewrite Hc, (IH Ha).
Qed.

Lemma hasByte_append (a b : string) :
  hasByte sep (a ++ b) = hasByte sep a || hasByte sep b.
Proof.
  induction a as [|c a IH]; simpl; [reflexivity |].
  now rewrite IH, orb_assoc.
Qed.

End SplitFacts.

Lemma nth_error_last {A} (l : list A) (d : A) :
  l <> [] -> nth_error l (List.length l - 1) = Some (List.last l d).
Proof.
  induction l as [|a l IH]; [congruence |].
  intros _. destruct l as [|b l]; [reflexivity |].
  change (List.last (a :: b :: l) d) with (List.last (b :: l) d).
  rewrite <- IH by discriminate.
  simpl. now rewrite Nat.sub_0_r.
Qed.

(** A suffix without the separator cannot reach across it. *)
Lemma HasSuffix_behind (sep : ascii) (suffix pre s : string) :
  hasByte sep suffix = false ->
  HasSuffix (pre ++ String sep s) suffix = HasSuffix s suffix.
Proof.
  intros Hsuf.
  assert (Hne : forall p, String.eqb (p ++ String sep s) suffix = false).
  { intros p. apply String.eqb_neq. intros E.
    apply (f_equal (hasByte sep)) in E.
    rewrite hasByte_append in E. simpl in E.
    rewrite Ascii.eqb_refl, orb_true_r in E. congruence. }
  induction pre as [|c pre IH].
  - specialize (Hne ""). cbn [append] in *. now rewrite HasSuffix_cons, Hne.
  - specialize (Hne (String c pre)). cbn [append] in *.
    now rewrite HasSuffix_cons, IH, Hne.
Qed.

(** ** The remote-URL parser *)

Lemma append_assoc (a b c : string) : (a ++ b) ++ c = a ++ b ++ c.
Proof. induction a as [|x a IH]; simpl; [reflexivity | now rewrite IH]. Qed.

Section Parser.

Variables host owner repo : string.

Local Abbreviation slash := "/"%char.
Local Abbreviation colon := ":"%char.

Lemma ownerRepo_https :
  hasByte slash host = false ->
  hasByte slash owner = false ->
  hasByte slash repo = false ->
  HasSuffix repo ".git" = false ->
  ownerRepo ("https://" ++ host ++ "/" ++ owner ++ "/" ++ repo)
  = Some (owner, repo).
Proof.
  intros Hh Ho Hr Hs. unfold ownerRepo.
  rewrite HasPrefix_append.
  change ("https://" ++ host ++ "/" ++ owner ++ "/" ++ repo)
    with ("https:" ++ String slash ("" ++ String slash
            (host ++ String slash (owner ++ String slash repo)))).
  rewrite TrimSuffix_none
    by (rewrite !(HasSuffix_behind slash) by reflexivity; exact Hs).
  rewrite !Split_append by (assumption || reflexivity).
  rewrite Split_no_sep by assumption.
  reflexivity.
Qed.

Lemma ownerRepo_https_git :
  hasByte slash host = false ->
  hasByte slash owner = false ->
  hasByte slash repo = false ->
  ownerRepo ("https://" ++ host ++ "/" ++ owner ++ "/" ++ repo ++ ".git")
  = Some (owner, repo).
Proof.
  intros Hh Ho Hr. unfold ownerRepo.
  rewrite HasPrefix_append.
  replace ("https://" ++ host ++ "/" ++ owner ++ "/" ++ repo ++ ".git")
    with (("https://" ++ host ++ "/" ++ owner ++ "/" ++ repo) ++ ".git")
    by (now rewrite !append_assoc).
  rewrite TrimSuffix_append.
  change ("https://" ++ host ++ "/" ++ owner ++ "/" ++ repo)
    with ("https:" ++ String slash ("" ++ String slash
            (host ++ String slash (owner ++ String slash repo)))).
  rewrite !Split_append by (assumption || reflexivity).
  rewrite Split_no_sep by assumption.
  reflexivity.
Qed.

Lemma ownerRepo_ssh_git :
  hasByte colon host = false ->
  hasByte colon owner = false ->
  hasByte colon repo = false ->
  hasByte slash owner = false ->
  hasByte slash repo = false ->
  ownerRepo ("git@" ++ host ++ ":" ++ owner ++ "/" ++ repo ++ ".git")
  = Some (owner, repo).
Proof.
  intros Hh Ho Hr Ho' Hr'. unfold ownerRepo.
  replace (HasPrefix ("git@" ++ host ++ ":" ++ owner ++ "/" ++ repo ++ ".git")
                     "https://") with false
    by (unfold HasPrefix; simpl; now rewrite andb_false_r).
  rewrite HasPrefix_append.
  replace ("git@" ++ host ++ ":" ++ owner ++ "/" ++ repo ++ ".git")
    with (("git@" ++ host ++ ":" ++ owner ++ "/" ++ repo) ++ ".git")
    by (now rewrite !append_assoc).
  rewrite TrimSuffix_append.
  replace ("git@" ++ host ++ ":" ++ owner ++ "/" ++ repo)
    with (("git@" ++ host) ++ String colon (owner ++ String slash repo))
    by (now rewrite !append_assoc).
  rewrite Split_append
    by (rewrite hasByte_append, Hh; reflexivity).
  rewrite Split_no_sep
    by (rewrite hasByte_append; simpl; now rewrite Ho, Hr).
  simpl.
  rewrite Split_append by assumption.
  rewrite Split_no_sep by assumption.
  reflexivity.
Qed.
End Parser.

Lemma ownerRepo_total (url : string) : ownerRepo url <> None.
Proof.
  unfold ownerRepo.
  destruct (HasPrefix url "https://").
  - pose proof (Split_nonempty "/" (TrimSuffix url ".git")) as Hlen.
    destruct (2 <=? List.length (Split (TrimSuffix url ".git") "/"))%nat eqn:E;
      [| congruence].
    apply Nat.leb_le in E.
    destruct (nth_error (Split (TrimSuffix url ".git") "/")
                (List.length (Split (TrimSuffix url ".git") "/") - 2)) eqn:E1;
      [| apply nth_error_None in E1; lia].
    destruct (nth_error (Split (TrimSuffix url ".git") "/")
                (List.length (Split (TrimSuffix url ".git") "/") - 1)) eqn:E2;
      [congruence | apply nth_error_None in E2; lia].
  - destruct (HasPrefix url "git@"); [| congruence].
    destruct (Split (TrimSuffix url ".git") ":") as [|a [|b [|c l]]];
      simpl; try congruence.
    destruct (Split b "/") as [|x [|y [|z l]]]; simpl; congruence.
Qed.

(** What [getGitHubRepoDetails] returns once the remote URL is known. *)
Lemma getGitHubRepoDetails_parsed (w : World) (url owner repo : string) :
  remoteIs w url ->
  ownerRepo url = Some (owner, repo) ->
  (if String.eqb owner "" || String.eqb repo "" then rejects w url
   else parses w owner repo).
Proof.
  intros (output & Hgit & Htrim) Hparse.
  destruct (String.eqb owner "" || String.eqb repo "") eqn:Hempty;
    intros t; unfold remoteURL in Hgit;
    cbv beta iota delta [Discover.getGitHubRepoDetails
                           CmdCliPr.getGitHubRepoDetails Output bind emit ret];
    rewrite Hgit; cbv beta iota zeta; rewrite Htrim, Hparse, Hempty;
    split; reflexivity.
Qed.

Lemma nonempty_eqb (s : string) : s <> "" -> String.eqb s "" = false.
Proof. intros H. now apply String.eqb_neq. Qed.

(** C4 (as amended): when the remote URL is
    [https://host/OWNER/REPO.git], or [https://host/OWNER/REPO] with a
    [REPO] that does not itself end in [.git], or
    [git@host:OWNER/REPO.git], with [host], [OWNER] and [REPO] non-empty
    and free of ['/'] and [':'], [getGitHubRepoDetails] returns exactly
    [(OWNER, REPO)]. *)
Theorem C4_accepted_forms_parse (w : World) (host OWNER REPO url : string) :
  host <> "" -> OWNER <> "" -> REPO <> "" ->
  hasByte "/" host = false -> hasByte ":" host = false ->
  hasByte "/" OWNER = false -> hasByte ":" OWNER = false ->
  hasByte "/" REPO = false -> hasByte ":" REPO = false ->
  remoteIs w url ->
  url = "https://" ++ host ++ "/" ++ OWNER ++ "/" ++ REPO ++ ".git"
  \/ (url = "https://" ++ host ++ "/" ++ OWNER ++ "/" ++ REPO
      /\ HasSuffix REPO ".git" = false)
  \/ url = "git@" ++ host ++ ":" ++ OWNER ++ "/" ++ REPO ++ ".git" ->
  parses w OWNER REPO.
Proof.
  intros _ HO HR Hh1 Hh2 Ho1 Ho2 Hr1 Hr2 Hremote Hform.
  assert (Hparse : ownerRepo url = Some (OWNER, REPO)).
  { destruct Hform as [-> | [[-> Hsuf] | ->]].
    - now apply ownerRepo_https_git.
    - now apply ownerRepo_https.
    - now apply ownerRepo_ssh_git. }
  pose proof (getGitHubRepoDetails_parsed w url OWNER REPO Hremote Hparse) as H.
  now rewrite (nonempty_eqb OWNER HO), (nonempty_eqb REPO HR) in H.
Qed.

(** The remote [https://github.com/acme/widgets.git] parses to
    [("acme", "widgets")]. *)
Lemma C4_accepted_forms_parse_witness :
  parses Cases.dotGitName "acme" "widgets".
Proof.
  apply (C4_accepted_forms_parse Cases.dotGitName "github.com" "acme" "widgets"
           "https://github.com/acme/widgets.git");
    try discriminate; try reflexivity.
  - exists ("https://github.com/acme/widgets.git" ++ nl). split; reflexivity.
  - left. reflexivity.
Defined.

(** C4 (as stated) fails: for [REPO = "widgets.git"] the URL
    [https://github.com/acme/widgets.git] is of the form
    [https://host/OWNER/REPO], yet the parser returns
    [("acme", "widgets")]. *)
Lemma C4_dot_git_name_counterexample :
  "widgets.git" <> ""
  /\ hasByte "/" "widgets.git" = false
  /\ hasByte ":" "widgets.git" = false
  /\ remoteIs Cases.dotGitName
       ("https://" ++ "github.com" ++ "/" ++ "acme" ++ "/" ++ "widgets.git")
  /\ parses Cases.dotGitName "acme" "widgets"
  /\ ~ parses Cases.dotGitName "acme" "widgets.git".
Proof.
  repeat split; try discriminate.
  - exists ("https://github.com/acme/widgets.git" ++ nl). split; reflexivity.
  - intros H. destruct (H []) as [_ H2]. vm_compute in H2. discriminate.
Qed.

(** C2: the remote [https://github.com/widgets] has a single path segment
    after the host, and [getGitHubRepoDetails] returns the pair
    [("github.com", "widgets")] with no error, in both files. *)
Theorem C2_single_segment_accepted :
  remoteIs Cases.singleSegment "https://github.com/widgets"
  /\ parses Cases.singleSegment "github.com" "widgets".
Proof.
  split.
  - exists ("https://github.com/widgets" ++ nl). split; reflexivity.
  - intros t. split; reflexivity.
Qed.

(** The parts of C2 that the code keeps: a URL that starts with neither
    [https://] nor [git@] is rejected by name, *)
Lemma unsupported_scheme_rejected (w : World) (url : string) :
  remoteIs w url ->
  HasPrefix url "https://" = false ->
  HasPrefix url "git@" = false ->
  rejects w url.
Proof.
  intros Hremote H1 H2.
  apply (getGitHubRepoDetails_parsed w url "" "" Hremote).
  unfold ownerRepo. now rewrite H1, H2.
Qed.

(** an owner or repository that comes out empty is rejected by name, *)
Lemma empty_owner_or_repo_rejected (w : World) (url owner repo : string) :
  remoteIs w url ->
  ownerRepo url = Some (owner, repo) ->
  owner = "" \/ repo = "" ->
  rejects w url.
Proof.
  intros Hremote Hparse Hempty.
  pose proof (getGitHubRepoDetails_parsed w url owner repo Hremote Hparse) as H.
  destruct Hempty as [-> | ->]; simpl in H; [exact H |].
  now rewrite orb_true_r in H.
Qed.

(** and a successful parse never returns an empty owner or repository. *)
Lemma parsed_pair_nonempty (w : World) (url owner repo : string) :
  remoteIs w url ->
  parses w owner repo ->
  owner <> "" /\ repo <> "".
Proof.
  intros Hremote Hok.
  destruct (ownerRepo url) as [[o r] |] eqn:Hparse;
    [| now apply ownerRepo_total in Hparse].
  pose proof (getGitHubRepoDetails_parsed w url o r Hremote Hparse) as H.
  destruct (String.eqb o "" || String.eqb r "") eqn:Hempty.
  - destruct (H []) as [H1 _]. destruct (Hok []) as [H2 _]. congruence.
  - destruct (H []) as [_ H1]. destruct (Hok []) as [_ H2].
    assert (o = owner /\ r = repo) as [-> ->] by (split; congruence).
    apply orb_false_elim in Hempty as [Ho Hr].
    split; now apply String.eqb_neq.
Qed.

(** The SSH form, unlike the HTTPS one, insists on exactly two path
    segments. *)
Lemma ssh_single_segment_rejected :
  ownerRepo "git@github.com:widgets" = Some ("", "").
Proof. reflexivity. Qed.

(** C10: [strings.Split] never returns an empty slice, so
    [getDefaultBranch] fails exactly when the [git symbolic-ref]
    subprocess fails, with that failure as its error, and otherwise
    returns the last segment of the trimmed output. *)
Theorem C10_getDefaultBranch_parse_error_unreachable
    (w : World) (t : list event) :
  (0 < List.length (Split (TrimSpace (fst (git w symbolicRef))) "/"))%nat
  /\ Discover.getDefaultBranch w t
     = ((t ++ [Exec "git" symbolicRef])%list,
        Done match snd (git w symbolicRef) with
             | Some e => (None, Some ("failed to get default branch: " ++ e))
             | None => (Some (discoveredBranch w), None)
             end).
Proof.
  split; [apply Split_nonempty |].
  unfold Discover.getDefaultBranch, discoveredBranch, lastSegment, Output,
    bind, emit, ret.
  change ["symbolic-ref"; "refs/remotes/origin/HEAD"] with symbolicRef.
  destruct (git w symbolicRef) as [output [e |]]; simpl; [reflexivity |].
  pose proof (Split_nonempty "/" (TrimSpace output)) as Hlen.
  apply Nat.ltb_lt in Hlen as Hlt. rewrite Hlt.
  rewrite (nth_error_last _ ""%string); [reflexivity |].
  intros E. rewrite E in Hlen. simpl in Hlen. lia.
Qed.

(** ** Runs of the entry points *)

(** Symbolic execution of a [main]: unfold the program, then decide the
    match that blocks evaluation, one at a time and in program order. *)
Ltac head_scrutinee t :=
  lazymatch t with
  | context [match ?y with _ => _ end] => head_scrutinee y
  | _ => t
  end.

Ltac step :=
  match goal with
  | |- ?G =>
      let x := head_scrutinee G in
      tryif constr_eq x G then fail else destruct x eqn:?
  end.

Ltac unfold_main :=
  cbv beta iota zeta delta
      [runOf run Discover.main CmdCliPr.main Discover.getCurrentBranch
       Discover.getDefaultBranch Discover.getGitHubRepoDetails
       CmdCliPr.getCurrentBranch CmdCliPr.getGitHubRepoDetails
       getJiraIssueTitle Output Do bind ret emit Fatalf fatalIf deref Printf
       Println Discover.Marshal CmdCliPr.Marshal
       Discover.Title Discover.Body Discover.Head Discover.Base Discover.Draft
       CmdCliPr.Title CmdCliPr.Body CmdCliPr.Head CmdCliPr.Base app fst snd].

Ltac run_main :=
  repeat (cbv beta iota zeta delta [app fst snd]; step);
  cbv beta iota zeta delta [app fst snd].

Lemma envIncomplete_of_missing (w : World) (name : string) :
  In (EnvVar name) requiredInputs ->
  missing w (EnvVar name) ->
  envIncomplete w = true.
Proof.
  unfold envIncomplete. simpl.
  intros [H | [H | [H | [H | [H | []]]]]] Hm; try discriminate;
    injection H as <-; rewrite Hm; simpl;
    rewrite ?orb_true_r; reflexivity.
Qed.

(** C9 (as amended): when the issue key or one of the four environment
    variables is absent, the process stops in [log.Fatalf] before it
    spawns any subprocess and before any HTTP request; the message is the
    fixed text about the four variables when one of them is absent, and
    the text about the [-issue] flag otherwise. *)
Theorem C9_missing_input_aborts_first
    (e : entry) (w : World) (r : required) :
  In r requiredInputs ->
  missing w r ->
  runOf e w
  = ([], Fatal (if envIncomplete w then envMissing else issueMissing)).
Proof.
  intros Hin Hmiss.
  assert (H : envIncomplete w = true
              \/ envIncomplete w = false
                 /\ String.eqb (flag_String w "issue" "") "" = true).
  { destruct (envIncomplete w) eqn:E; [now left | right; split; [reflexivity |]].
    destruct r as [| name].
    - simpl in Hmiss. rewrite Hmiss. reflexivity.
    - rewrite (envIncomplete_of_missing w name Hin Hmiss) in E. discriminate. }
  destruct H as [H | [H1 H2]].
  - rewrite H. unfold envIncomplete in H.
    destruct e; unfold_main; rewrite H; reflexivity.
  - rewrite H1. unfold envIncomplete in H1.
    destruct e; unfold_main; rewrite H1, H2; reflexivity.
Qed.

(** With neither [JIRA_EMAIL] nor the issue key given, both entry points
    stop at once with the message about the environment. *)
Lemma C9_missing_input_aborts_first_witness :
  runOf DiscoverMain Cases.nothingGiven = ([], Fatal envMissing)
  /\ runOf CmdCliPrMain Cases.nothingGiven = ([], Fatal envMissing).
Proof.
  split.
  - apply (C9_missing_input_aborts_first DiscoverMain Cases.nothingGiven IssueKey);
      [simpl; tauto | reflexivity].
  - apply (C9_missing_input_aborts_first CmdCliPrMain Cases.nothingGiven
             (EnvVar "JIRA_EMAIL")); [simpl; tauto | reflexivity].
Defined.

(** C9 (as stated) fails: with neither [JIRA_EMAIL] nor the issue key
    given, the run stops with the message about the environment
    variables, which does not name the issue key and does name
    [GITHUB_TOKEN], a variable that is set. *)
Lemma C9_message_counterexample :
  In IssueKey requiredInputs
  /\ missing Cases.nothingGiven IssueKey
  /\ (mentions envMissing (label (EnvVar "GITHUB_TOKEN")) = true
      /\ ~ missing Cases.nothingGiven (EnvVar "GITHUB_TOKEN"))
  /\ forall e, ~ exists msg,
         snd (runOf e Cases.nothingGiven) = Fatal msg
         /\ listsMissing Cases.nothingGiven msg.
Proof.
  split; [simpl; tauto | split; [reflexivity |]].
  split; [split; [reflexivity | discriminate] |].
  intros e (msg & Hrun & Hlists).
  assert (msg = envMissing) as -> by (destruct e; vm_compute in Hrun; inversion Hrun; reflexivity).
  specialize (Hlists IssueKey (or_introl eq_refl) eq_refl).
  vm_compute in Hlists. discriminate.
Qed.


(** Closes the goals about which events a concrete trace holds. *)
Ltac no_such_event :=
  let name := fresh "name" in
  let rest := fresh "rest" in
  let H := fresh "H" in
  intros (name & rest & H); simpl in H;
  repeat (destruct H as [H | H]; [discriminate H |]);
  exact H.

Ltac each_post :=
  let req := fresh "req" in
  let H := fresh "H" in
  intros req H; cbn [requests Method String.eqb Ascii.eqb Bool.eqb In] in H;
  repeat (destruct H as [H | H]; [subst req |]);
  [.. | contradiction H].


Ltac the_request H :=
  cbn [requests Method String.eqb Ascii.eqb Bool.eqb In] in H;
  repeat (destruct H as [H | H]; [symmetry in H; subst |]);
  [.. | contradiction H].

(** C7: when JIRA answers the GET with a status other than 200, the run
    ends in [log.Fatalf] with the lookup's error, which carries the status
    line of the response, and no POST is sent, in both entry points. *)
Theorem C7_jira_failure_stops_run
    (e : entry) (w : World) (req : Request) (resp : Response) :
  In req (requests "GET" (fst (runOf e w))) ->
  http w req = inl resp ->
  StatusCode resp <> 200%Z ->
  snd (runOf e w)
  = Fatal ("Error fetching JIRA issue: "
           ++ "Failed to fetch JIRA issue. Status: " ++ Status resp)
  /\ requests "POST" (fst (runOf e w)) = [].
Proof.
  destruct e; unfold_main; run_main; intros Hin Hhttp Hcode;
    the_request Hin.
  all: match goal with
       | H : http _ _ = _ |- _ =>
           rewrite Hhttp in H; first [discriminate H | injection H as <-]
       end.
  all: match goal with
       | H : negb (StatusCode ?r =? 200)%Z = _ |- _ =>
           destruct (Z.eqb_spec (StatusCode r) 200); simpl in H;
           [contradiction | try discriminate H]
       end.
  all: split; reflexivity.
Qed.

(** JIRA answers 404: both entry points stop with that status line and
    send no POST. *)
Lemma C7_jira_failure_stops_run_witness :
  (snd (runOf DiscoverMain Cases.notFound)
   = Fatal ("Error fetching JIRA issue: "
            ++ "Failed to fetch JIRA issue. Status: " ++ "404 Not Found")
   /\ requests "POST" (fst (runOf DiscoverMain Cases.notFound)) = [])
  /\ (snd (runOf CmdCliPrMain Cases.notFound)
      = Fatal ("Error fetching JIRA issue: "
               ++ "Failed to fetch JIRA issue. Status: " ++ "404 Not Found")
      /\ requests "POST" (fst (runOf CmdCliPrMain Cases.notFound)) = []).
Proof.
  split.
  - apply (C7_jira_failure_stops_run DiscoverMain Cases.notFound
             {| Method := "GET";
                URL := "https://jira.example.com/rest/api/3/issue/PROJ-42";
                BasicAuth := Some ("dev@example.com", "jira-token");
                Header := [("Accept", "application/json")];
                ReqBody := None |}
             (Sample.response 404 "404 Not Found" "{}"));
      [vm_compute; tauto | reflexivity | discriminate].
  - apply (C7_jira_failure_stops_run CmdCliPrMain Cases.notFound
             {| Method := "GET";
                URL := "https://jira.example.com/rest/api/3/issue/PROJ-42";
                BasicAuth := Some ("dev@example.com", "jira-token");
                Header := [("Accept", "application/json")];
                ReqBody := None |}
             (Sample.response 404 "404 Not Found" "{}"));
      [vm_compute; tauto | reflexivity | discriminate].
Defined.

Lemma ends_with_cons {A} (x : A) (l s : list A) :
  (exists l0, l = (l0 ++ s)%list) -> exists l0, x :: l = (l0 ++ s)%list.
Proof. intros (l0 & ->). now exists (x :: l0). Qed.

Ltac ends_with :=
  repeat first [ now (exists []) | apply ends_with_cons ].

(** C6 (as amended): a run succeeds only if GitHub answered the POST with
    status 201; on 201 the entry point with discovery prints the success
    line and then the URL decoded from the response body, while
    [cmd/cli/pr/main.go] prints the success line only; on any other
    status the run ends in [log.Fatalf] with the status line and the
    response body, verbatim. *)
Theorem C6_only_201_succeeds (e : entry) (w : World) :
  (snd (runOf e w) = Done tt ->
   exists resp, answered w (fst (runOf e w)) resp /\ StatusCode resp = 201%Z)
  /\ (forall resp,
        answered w (fst (runOf e w)) resp ->
        (StatusCode resp = 201%Z ->
         snd (runOf e w) = Done tt
         /\ exists tr0, fst (runOf e w) = (tr0 ++ successLines e w resp)%list)
        /\ (StatusCode resp <> 201%Z ->
            snd (runOf e w)
            = Fatal ("Failed to create pull request. Status: " ++ Status resp
                     ++ ", Response: " ++ RespBody resp))).
Proof.
  split.
  - destruct e; unfold answered; unfold_main; run_main; try discriminate.
    all: intros _.
    all: match goal with
         | H : http _ ?r = inl ?resp, E : (StatusCode ?resp =? 201)%Z = true |- _ =>
             exists resp; split;
             [ exists r; split;
               [ cbn [requests Method String.eqb Ascii.eqb Bool.eqb In];
                 left; reflexivity
               | exact H ]
             | now apply Z.eqb_eq ]
         end.
  - intros resp (req & Hin & Hhttp); revert Hin Hhttp.
    destruct e; unfold successLines; unfold_main; run_main;
      intros Hin Hhttp; the_request Hin.
    all: match goal with
         | H : http _ _ = _ |- _ =>
             rewrite Hhttp in H; first [discriminate H | injection H as <-]
         end.
    all: match goal with
         | H : (StatusCode ?r =? 201)%Z = _ |- _ =>
             destruct (Z.eqb_spec (StatusCode r) 201); try discriminate H
         end.
    all: split; intros Hcode; try contradiction; try reflexivity.
    all: split; [reflexivity |].
    all: try match goal with
             | H1 : ?x = (_, _), H2 : ?x = (_, _) |- _ =>
                 rewrite H1 in H2; inversion H2; subst
             end.
    all: ends_with.
Qed.

(** GitHub answers 422: the run fails with the status line and the body
    as received. *)
Lemma C6_only_201_succeeds_witness :
  snd (runOf DiscoverMain Cases.unprocessable)
  = Fatal ("Failed to create pull request. Status: "
           ++ "422 Unprocessable Entity"
           ++ ", Response: " ++ "{message: Validation Failed}").
Proof.
  destruct (C6_only_201_succeeds DiscoverMain Cases.unprocessable) as [_ H].
  destruct (H (Sample.response 422 "422 Unprocessable Entity"
                               "{message: Validation Failed}")) as [_ H422].
  - eexists. split; [vm_compute; left; reflexivity | reflexivity].
  - apply H422. discriminate.
Defined.

(** C6 (as stated) fails in [cmd/cli/pr/main.go]: GitHub answers 201, the
    run succeeds, and the URL decoded from the response body is not
    printed. *)
Lemma C6_cmd_cli_pr_url_counterexample :
  answered (Sample.good [("issue", "PROJ-42")])
           (fst (runOf CmdCliPrMain (Sample.good [("issue", "PROJ-42")])))
           Sample.created
  /\ StatusCode Sample.created = 201%Z
  /\ snd (runOf CmdCliPrMain (Sample.good [("issue", "PROJ-42")])) = Done tt
  /\ ~ In (Stdout (fst (Unmarshal_PullRequestResponse
                          (Sample.good [("issue", "PROJ-42")])
                          (RespBody Sample.created)) ++ nl))
          (fst (runOf CmdCliPrMain (Sample.good [("issue", "PROJ-42")]))).
Proof.
  repeat split.
  - eexists. split; [vm_compute; left; reflexivity | reflexivity].
  - vm_compute. intros H.
    repeat (destruct H as [H | H]; [discriminate H |]). exact H.
Qed.

Lemma discovered_last (w : World) (output last : string) :
  git w ["symbolic-ref"; "refs/remotes/origin/HEAD"] = (output, None) ->
  nth_error (Split (TrimSpace output) "/")
            (List.length (Split (TrimSpace output) "/") - 1) = Some last ->
  discoveredBranch w = last.
Proof.
  intros Hgit Hnth. unfold discoveredBranch, lastSegment, symbolicRef.
  rewrite Hgit. cbn [fst].
  pose proof (Split_nonempty "/" (TrimSpace output)) as Hlen.
  rewrite (nth_error_last _ ""%string) in Hnth; [congruence |].
  intros E. rewrite E in Hlen. simpl in Hlen. lia.
Qed.

(** C5 (as amended): in the entry point that discovers the default
    branch, when [-base] is absent or empty, every pull-request payload
    carries as its base the last segment of the trimmed output of
    [git symbolic-ref refs/remotes/origin/HEAD], provided that segment is
    valid UTF-8. *)
Theorem C5_empty_base_uses_discovered_branch (w : World) :
  flag_String w "base" "" = "" ->
  ValidString (discoveredBranch w) = true ->
  posts "base" (JString (discoveredBranch w)) (fst (runOf DiscoverMain w)).
Proof.
  intros Hbase Hvalid. unfold posts. unfold_main. rewrite Hbase.
  change (String.eqb "" "") with true.
  run_main; each_post.
  all: cbn [field payload ReqBody String.eqb Ascii.eqb Bool.eqb].
  all: match goal with
       | Hgit : git ?w0 _ = (?out, None), Hnth : nth_error _ _ = Some ?last |- _ =>
           pose proof (discovered_last w0 out last Hgit Hnth) as Hlast
       end.
  all: rewrite Hlast in *; now rewrite (coerceUTF8_valid _ Hvalid).
Qed.

(** Without [-base], on a repository whose remote HEAD is [main], the
    payload that is sent has the base [main]. *)
Lemma C5_empty_base_uses_discovered_branch_witness :
  posts "base" (JString "main")
        (fst (runOf DiscoverMain (Sample.good [("issue", "PROJ-42")])))
  /\ requests "POST" (fst (runOf DiscoverMain (Sample.good [("issue", "PROJ-42")])))
     <> [].
Proof.
  split.
  - apply (C5_empty_base_uses_discovered_branch (Sample.good [("issue", "PROJ-42")]));
      reflexivity.
  - vm_compute. discriminate.
Defined.

(** C5 (as stated) fails in [cmd/cli/pr/main.go]: with [-base ""] the
    payload carries the empty base and [git symbolic-ref] is never
    asked, although the remote HEAD is [main]. *)
Lemma C5_cmd_cli_pr_counterexample :
  flags Cases.emptyBase "base" = Some ""
  /\ discoveredBranch Cases.emptyBase = "main"
  /\ posts "base" (JString "") (fst (runOf CmdCliPrMain Cases.emptyBase))
  /\ ~ posts "base" (JString (discoveredBranch Cases.emptyBase))
         (fst (runOf CmdCliPrMain Cases.emptyBase)).
Proof.
  repeat split.
  - intros req H. vm_compute in H. destruct H as [<- | []]. reflexivity.
  - intros H.
    assert (Hin : exists req,
               In req (requests "POST" (fst (runOf CmdCliPrMain Cases.emptyBase)))
               /\ field "base" (payload req) = Some (JString "")).
    { eexists. split; [vm_compute; left; reflexivity | reflexivity]. }
    destruct Hin as (req & Hin & Hempty).
    specialize (H req Hin). rewrite Hempty in H. vm_compute in H. discriminate.
Qed.





(** When [git rev-parse] fails while [-base] is empty and
    [git symbolic-ref] succeeds, the second call overwrites the error of
    the first, and [main] dereferences the nil source branch. *)
Lemma rev_parse_error_overwritten (w : World) (e : string) :
  envIncomplete w = false ->
  flag_String w "issue" "" <> "" ->
  flag_String w "base" "" = "" ->
  snd (git w revParse) = Some e ->
  snd (git w symbolicRef) = None ->
  runOf DiscoverMain w
  = ([Exec "git" revParse; Exec "git" symbolicRef], Panic nilDeref).
Proof.
  unfold envIncomplete, revParse, symbolicRef.
  intros Henv Hkey Hbase Hrev Hsym. apply nonempty_eqb in Hkey.
  unfold_main. rewrite Henv, Hkey, Hbase.
  destruct (git w ["rev-parse"; "--abbrev-ref"; "HEAD"]) as [out1 err1].
  destruct (git w ["symbolic-ref"; "refs/remotes/origin/HEAD"]) as [out2 err2].
  cbn [snd] in Hrev, Hsym. subst err1 err2.
  change (String.eqb "" "") with true. cbv beta iota.
  pose proof (Split_nonempty "/" (TrimSpace out2)) as Hlen.
  apply Nat.ltb_lt in Hlen as Hlt. rewrite Hlt.
  rewrite (nth_error_last _ ""%string); [reflexivity |].
  intros E. rewrite E in Hlen. simpl in Hlen. lia.
Qed.

(** When [git rev-parse] fails, no HTTP request is made and the exit
    status is not zero, whatever else happens. *)
Lemma rev_parse_failure_no_request (e : entry) (w : World) (msg : string) :
  snd (git w revParse) = Some msg ->
  (forall ev, In ev (fst (runOf e w)) -> ~ isHttp ev)
  /\ exit_status (snd (runOf e w)) <> 0%Z.
Proof.
  unfold revParse. intros Hrev.
  destruct (git w ["rev-parse"; "--abbrev-ref"; "HEAD"]) as [out1 err1] eqn:Hgit.
  cbn [snd] in Hrev. subst err1.
  destruct e; unfold_main; rewrite ?Hgit; run_main.
  all: split; [| discriminate].
  all: intros ev Hin; cbn [In] in Hin;
    repeat (destruct Hin as [Hin | Hin]; [subst ev; exact (fun x => x) |]);
    contradiction Hin.
Qed.

(** C3: with no [-base], [git rev-parse] failing and [git symbolic-ref]
    succeeding, the entry point with discovery reports no error: it stops
    in a nil-pointer panic after both subprocesses.  In the same
    environment [cmd/cli/pr/main.go] reports the failure of
    [git rev-parse] and stops. *)
Theorem C3_rev_parse_failure_nil_dereference :
  runOf DiscoverMain Cases.revParseFails
  = ([Exec "git" revParse; Exec "git" symbolicRef], Panic nilDeref)
  /\ runOf CmdCliPrMain Cases.revParseFails
     = ([Exec "git" revParse],
        Fatal ("Error getting current branch: "
               ++ "failed to get current branch: " ++ "exit status 128")).
Proof.
  split.
  - apply (rev_parse_error_overwritten Cases.revParseFails "exit status 128");
      (reflexivity || discriminate).
  - reflexivity.
Qed.



(** ** The library functions on sample inputs *)

Example TrimSpace_output :
  TrimSpace (" refs/remotes/origin/main" ++ nl) = "refs/remotes/origin/main".
Proof. reflexivity. Qed.

Example TrimSpace_no_break_space :
  TrimSpace (String (ascii_of_nat 194) (String (ascii_of_nat 160) "main")) = "main".
Proof. reflexivity. Qed.

Example coerceUTF8_latin1 :
  ValidString Cases.latin1Name = false
  /\ coerceUTF8 Cases.latin1Name = "caf" ++ replacement "".
Proof. split; reflexivity. Qed.

Example coerceUTF8_ill_formed :
  coerceUTF8 (String (ascii_of_nat 192) (String (ascii_of_nat 128) ""))
  = replacement (replacement "")
  /\ ValidString (String (ascii_of_nat 237) (String (ascii_of_nat 160) (String (ascii_of_nat 128) "")))
     = false
  /\ ValidString (String (ascii_of_nat 244) (String (ascii_of_nat 144) (String (ascii_of_nat 128) (String (ascii_of_nat 128) ""))))
     = false
  /\ coerceUTF8 (String (ascii_of_nat 226) (String (ascii_of_nat 130) "x"))
     = replacement (replacement "x").
Proof. repeat split. Qed.

Example coerceUTF8_euro :
  ValidString (String (ascii_of_nat 226) (String (ascii_of_nat 130) (String (ascii_of_nat 172) "")))
  = true.
Proof. reflexivity. Qed.

Example Split_empty : Split "" "/" = [""].
Proof. reflexivity. Qed.

Example Split_ref :
  Split "refs/remotes/origin/main" "/" = ["refs"; "remotes"; "origin"; "main"].
Proof. reflexivity. Qed.

Example TrimSuffix_once : TrimSuffix "widgets.git.git" ".git" = "widgets.git".
Proof. reflexivity. Qed.

Example lastSegment_trailing_slash : lastSegment "refs/remotes/origin/" = "".
Proof. reflexivity. Qed.

(** * Further properties of the code *)

(** ** More on the string functions *)

Lemma Split_append_any (sep : ascii) (a b : string) :
  Split (a ++ String sep b) sep = (Split a sep ++ Split b sep)%list.
Proof.
  induction a as [|c a IH]; simpl.
  - now rewrite Ascii.eqb_refl.
  - rewrite IH. destruct (Ascii.eqb c sep); [reflexivity |].
    pose proof (Split_nonempty sep a) as Hlen.
    destruct (Split a sep); [simpl in Hlen; lia | reflexivity].
Qed.

Lemma Split_segments (sep : ascii) (s : string) :
  Forall (fun p => hasByte sep p = false) (Split s sep).
Proof.
  induction s as [|c s IH]; simpl.
  - constructor; [reflexivity | constructor].
  - destruct (Ascii.eqb c sep) eqn:E.
    + constructor; [reflexivity | exact IH].
    + destruct (Split s sep) as [|p ps].
      * constructor; [simpl; now rewrite E | constructor].
      * inversion IH as [|? ? Hp Hps]; subst.
        constructor; [simpl; now rewrite E, Hp | exact Hps].
Qed.

Lemma nth_error_segment (sep : ascii) (s p : string) (n : nat) :
  nth_error (Split s sep) n = Some p -> hasByte sep p = false.
Proof.
  intros H. apply nth_error_In in H.
  pose proof (Split_segments sep s) as HF.
  rewrite Forall_forall in HF. now apply HF.
Qed.

Lemma last_two {A} (l : list A) (a b : A) :
  nth_error (l ++ [a; b]) (List.length (l ++ [a; b]) - 2) = Some a
  /\ nth_error (l ++ [a; b]) (List.length (l ++ [a; b]) - 1) = Some b
  /\ (2 <=? List.length (l ++ [a; b]))%nat = true.
Proof.
  rewrite length_app. simpl List.length.
  replace (List.length l + 2 - 2) with (List.length l + 0) by lia.
  replace (List.length l + 2 - 1) with (List.length l + 1) by lia.
  rewrite !nth_error_app2 by lia.
  replace (List.length l + 0 - List.length l) with 0 by lia.
  replace (List.length l + 1 - List.length l) with 1 by lia.
  repeat split. apply Nat.leb_le. lia.
Qed.

Lemma Split_https_path (pre owner repo : string) :
  hasByte "/" owner = false ->
  hasByte "/" repo = false ->
  Split ("https://" ++ pre ++ "/" ++ owner ++ "/" ++ repo) "/"
  = (Split ("https://" ++ pre) "/" ++ [owner; repo])%list.
Proof.
  intros Ho Hr.
  replace ("https://" ++ pre ++ "/" ++ owner ++ "/" ++ repo)
    with (("https://" ++ pre) ++ String "/" (owner ++ String "/" repo))
    by (now rewrite !append_assoc).
  rewrite Split_append_any.
  rewrite (Split_append "/" owner repo Ho).
  now rewrite (Split_no_sep "/" repo Hr).
Qed.

(** Whatever precedes them, the HTTPS branch returns the last two
    segments of the path. *)
Lemma ownerRepo_https_last_two (pre owner repo : string) :
  hasByte "/" owner = false ->
  hasByte "/" repo = false ->
  HasSuffix repo ".git" = false ->
  ownerRepo ("https://" ++ pre ++ "/" ++ owner ++ "/" ++ repo) = Some (owner, repo).
Proof.
  intros Ho Hr Hs.
  destruct (last_two (Split ("https://" ++ pre) "/") owner repo) as (H2 & H1 & Hlen).
  unfold ownerRepo. rewrite HasPrefix_append.
  rewrite TrimSuffix_none.
  - rewrite (Split_https_path pre owner repo Ho Hr), Hlen, H2, H1. reflexivity.
  - replace ("https://" ++ pre ++ "/" ++ owner ++ "/" ++ repo)
      with (("https://" ++ pre ++ "/" ++ owner) ++ String "/" repo)
      by (now rewrite !append_assoc).
    now rewrite HasSuffix_behind.
Qed.

Lemma ownerRepo_https_git_last_two (pre owner repo : string) :
  hasByte "/" owner = false ->
  hasByte "/" repo = false ->
  ownerRepo ("https://" ++ pre ++ "/" ++ owner ++ "/" ++ repo ++ ".git")
  = Some (owner, repo).
Proof.
  intros Ho Hr.
  destruct (last_two (Split ("https://" ++ pre) "/") owner repo) as (H2 & H1 & Hlen).
  unfold ownerRepo. rewrite HasPrefix_append.
  replace ("https://" ++ pre ++ "/" ++ owner ++ "/" ++ repo ++ ".git")
    with (("https://" ++ pre ++ "/" ++ owner ++ "/" ++ repo) ++ ".git")
    by (now rewrite !append_assoc).
  rewrite TrimSuffix_append.
  rewrite (Split_https_path pre owner repo Ho Hr), Hlen, H2, H1. reflexivity.
Qed.

Lemma ownerRepo_no_slash (url owner repo : string) :
  ownerRepo url = Some (owner, repo) ->
  hasByte "/" owner = false /\ hasByte "/" repo = false.
Proof.
  unfold ownerRepo.
  destruct (HasPrefix url "https://").
  - destruct (2 <=? _)%nat; [| intros [= <- <-]; now split].
    destruct (nth_error _ _) as [o |] eqn:E2; [| discriminate].
    destruct (nth_error _ (_ - 1)) as [r |] eqn:E1; [| discriminate].
    intros [= <- <-]. split; eapply nth_error_segment; eassumption.
  - destruct (HasPrefix url "git@"); [| intros [= <- <-]; now split].
    destruct (_ =? 2)%nat; [| intros [= <- <-]; now split].
    destruct (nth_error _ 1) as [path |]; [| discriminate].
    destruct (_ =? 2)%nat; [| intros [= <- <-]; now split].
    destruct (nth_error _ 0) as [o |] eqn:E2; [| discriminate].
    destruct (nth_error _ 1) as [r |] eqn:E1; [| discriminate].
    intros [= <- <-]. split; eapply nth_error_segment; eassumption.
Qed.

Lemma remoteIs_of_parses (w : World) (owner repo : string) :
  parses w owner repo -> exists url, remoteIs w url.
Proof.
  intros H. destruct (H []) as [_ H2]. revert H2.
  cbv beta iota zeta delta [CmdCliPr.getGitHubRepoDetails Output bind emit ret snd].
  change ["config"; "--get"; "remote.origin.url"] with remoteURL.
  destruct (git w remoteURL) as [output [e |]] eqn:Hgit; [discriminate |].
  intros _. exists (TrimSpace output), output. now split.
Qed.

(** X1: whatever [git config] prints, [getGitHubRepoDetails] spawns that
    one subprocess and does not panic: the length guards keep every index
    in range. *)
Theorem X1_getGitHubRepoDetails_stays_in_bounds (w : World) (t : list event) :
  (fst (Discover.getGitHubRepoDetails w t) = (t ++ [Exec "git" remoteURL])%list
   /\ isPanic (snd (Discover.getGitHubRepoDetails w t)) = false)
  /\ (fst (CmdCliPr.getGitHubRepoDetails w t) = (t ++ [Exec "git" remoteURL])%list
      /\ isPanic (snd (CmdCliPr.getGitHubRepoDetails w t)) = false).
Proof.
  cbv beta iota zeta delta [Discover.getGitHubRepoDetails
                              CmdCliPr.getGitHubRepoDetails Output bind emit ret].
  change ["config"; "--get"; "remote.origin.url"] with remoteURL.
  destruct (git w remoteURL) as [output [e |]]; [repeat split |].
  pose proof (ownerRepo_total (TrimSpace output)) as Htotal.
  destruct (ownerRepo (TrimSpace output)) as [[owner repo] |]; [| congruence].
  destruct (String.eqb owner "" || String.eqb repo ""); repeat split.
Qed.

(** X2: an owner and a repository that [getGitHubRepoDetails] returns
    without error are both non-empty and contain no slash. *)
Theorem X2_parsed_pair_is_clean (w : World) (owner repo : string) :
  parses w owner repo ->
  (owner <> "" /\ repo <> "")
  /\ hasByte "/" owner = false /\ hasByte "/" repo = false.
Proof.
  intros Hok. destruct (remoteIs_of_parses w owner repo Hok) as (url & Hremote).
  split; [exact (parsed_pair_nonempty w url owner repo Hremote Hok) |].
  destruct (ownerRepo url) as [[o r] |] eqn:Hparse;
    [| now apply ownerRepo_total in Hparse].
  pose proof (getGitHubRepoDetails_parsed w url o r Hremote Hparse) as H.
  destruct (String.eqb o "" || String.eqb r "") eqn:Hempty.
  - destruct (H []) as [H1 _]. destruct (Hok []) as [H2 _]. congruence.
  - destruct (H []) as [_ H1]. destruct (Hok []) as [_ H2].
    assert (o = owner /\ r = repo) as [-> ->] by (split; congruence).
    exact (ownerRepo_no_slash url owner repo Hparse).
Qed.

(** The remote [https://github.com/acme/widgets.git] gives a clean pair. *)
Lemma X2_parsed_pair_is_clean_witness :
  ("acme" <> "" /\ "widgets" <> "")
  /\ hasByte "/" "acme" = false /\ hasByte "/" "widgets" = false.
Proof.
  apply (X2_parsed_pair_is_clean Cases.dotGitName "acme" "widgets").
  intros t. split; reflexivity.
Defined.

(** X3: an HTTPS remote with more than two path segments parses to its
    last two: for [https://PRE/OWNER/REPO.git], and for
    [https://PRE/OWNER/REPO] when [REPO] does not end in [.git], with any
    [PRE] at all, [getGitHubRepoDetails] returns [(OWNER, REPO)]. *)
Theorem X3_https_takes_last_two_segments
    (w : World) (pre OWNER REPO url : string) :
  OWNER <> "" -> REPO <> "" ->
  hasByte "/" OWNER = false -> hasByte "/" REPO = false ->
  remoteIs w url ->
  url = "https://" ++ pre ++ "/" ++ OWNER ++ "/" ++ REPO ++ ".git"
  \/ (url = "https://" ++ pre ++ "/" ++ OWNER ++ "/" ++ REPO
      /\ HasSuffix REPO ".git" = false) ->
  parses w OWNER REPO.
Proof.
  intros HO HR Ho Hr Hremote Hform.
  assert (Hparse : ownerRepo url = Some (OWNER, REPO)).
  { destruct Hform as [-> | [-> Hsuf]].
    - now apply ownerRepo_https_git_last_two.
    - now apply ownerRepo_https_last_two. }
  pose proof (getGitHubRepoDetails_parsed w url OWNER REPO Hremote Hparse) as H.
  now rewrite (nonempty_eqb OWNER HO), (nonempty_eqb REPO HR) in H.
Qed.

(** The subgroup of [https://gitlab.example.com/group/acme/widgets.git]
    is dropped. *)
Lemma X3_https_takes_last_two_segments_witness :
  parses More.nested "acme" "widgets".
Proof.
  apply (X3_https_takes_last_two_segments More.nested "gitlab.example.com/group"
           "acme" "widgets" "https://gitlab.example.com/group/acme/widgets.git");
    try discriminate; try reflexivity.
  - exists ("https://gitlab.example.com/group/acme/widgets.git" ++ nl).
    split; reflexivity.
  - left. reflexivity.
Defined.

Lemma not_https (rest : string) : HasPrefix ("git@" ++ rest) "https://" = false.
Proof. unfold HasPrefix. simpl. now rewrite andb_false_r. Qed.

Lemma ownerRepo_ssh (host owner repo : string) :
  hasByte ":" host = false ->
  hasByte ":" owner = false ->
  hasByte ":" repo = false ->
  hasByte "/" owner = false ->
  hasByte "/" repo = false ->
  HasSuffix repo ".git" = false ->
  ownerRepo ("git@" ++ host ++ ":" ++ owner ++ "/" ++ repo) = Some (owner, repo).
Proof.
  intros Hh Ho Hr Ho' Hr' Hs. unfold ownerRepo.
  rewrite not_https, HasPrefix_append.
  rewrite TrimSuffix_none.
  2:{ replace ("git@" ++ host ++ ":" ++ owner ++ "/" ++ repo)
        with (("git@" ++ host ++ ":" ++ owner) ++ String "/" repo)
        by (now rewrite !append_assoc).
      now rewrite HasSuffix_behind. }
  replace ("git@" ++ host ++ ":" ++ owner ++ "/" ++ repo)
    with (("git@" ++ host) ++ String ":" (owner ++ String "/" repo))
    by (now rewrite !append_assoc).
  rewrite Split_append by (rewrite hasByte_append, Hh; reflexivity).
  rewrite Split_no_sep by (rewrite hasByte_append; simpl; now rewrite Ho, Hr).
  simpl.
  rewrite Split_append by assumption.
  rewrite Split_no_sep by assumption.
  reflexivity.
Qed.

(** X4: an SCP-style remote needs no [.git] suffix: for
    [git@host:OWNER/REPO] with [host], [OWNER] and [REPO] free of [':'],
    [OWNER] and [REPO] non-empty and free of ['/'], and [REPO] not ending
    in [.git], [getGitHubRepoDetails] returns [(OWNER, REPO)]. *)
Theorem X4_ssh_without_suffix_parses (w : World) (host OWNER REPO : string) :
  OWNER <> "" -> REPO <> "" ->
  hasByte ":" host = false ->
  hasByte "/" OWNER = false -> hasByte ":" OWNER = false ->
  hasByte "/" REPO = false -> hasByte ":" REPO = false ->
  HasSuffix REPO ".git" = false ->
  remoteIs w ("git@" ++ host ++ ":" ++ OWNER ++ "/" ++ REPO) ->
  parses w OWNER REPO.
Proof.
  intros HO HR Hh Ho1 Ho2 Hr1 Hr2 Hs Hremote.
  pose proof (ownerRepo_ssh host OWNER REPO Hh Ho2 Hr2 Ho1 Hr1 Hs) as Hparse.
  pose proof (getGitHubRepoDetails_parsed w _ OWNER REPO Hremote Hparse) as H.
  now rewrite (nonempty_eqb OWNER HO), (nonempty_eqb REPO HR) in H.
Qed.

(** The remote [git@github.com:acme/widgets]. *)
Lemma X4_ssh_without_suffix_parses_witness :
  parses More.sshBare "acme" "widgets".
Proof.
  apply (X4_ssh_without_suffix_parses More.sshBare "github.com" "acme" "widgets");
    try discriminate; try reflexivity.
  exists ("git@github.com:acme/widgets" ++ nl). split; reflexivity.
Defined.

(** X5: unlike the HTTPS branch, the SCP-style branch rejects a path of
    more than two segments: [git@host:GROUP/OWNER/REPO.git] is a parse
    error that names the URL. *)
Theorem X5_ssh_nested_path_rejected
    (w : World) (host group OWNER REPO url : string) :
  hasByte ":" host = false -> hasByte ":" group = false ->
  hasByte ":" OWNER = false -> hasByte ":" REPO = false ->
  hasByte "/" OWNER = false -> hasByte "/" REPO = false ->
  url = "git@" ++ host ++ ":" ++ group ++ "/" ++ OWNER ++ "/" ++ REPO ++ ".git" ->
  remoteIs w url ->
  rejects w url.
Proof.
  intros Hh Hg Ho Hr Ho' Hr' -> Hremote.
  apply (getGitHubRepoDetails_parsed w _ "" "" Hremote).
  unfold ownerRepo. rewrite not_https, HasPrefix_append.
  replace ("git@" ++ host ++ ":" ++ group ++ "/" ++ OWNER ++ "/" ++ REPO ++ ".git")
    with (("git@" ++ host ++ ":" ++ group ++ "/" ++ OWNER ++ "/" ++ REPO) ++ ".git")
    by (now rewrite !append_assoc).
  rewrite TrimSuffix_append.
  replace ("git@" ++ host ++ ":" ++ group ++ "/" ++ OWNER ++ "/" ++ REPO)
    with (("git@" ++ host)
            ++ String ":" (group ++ String "/" (OWNER ++ String "/" REPO)))
    by (now rewrite !append_assoc).
  rewrite Split_append by (rewrite hasByte_append, Hh; reflexivity).
  rewrite Split_no_sep
    by (rewrite !hasByte_append; simpl; rewrite hasByte_append; simpl;
        now rewrite Hg, Ho, Hr).
  cbn [List.length Nat.eqb nth_error].
  rewrite Split_append_any, (Split_append "/" OWNER REPO Ho'),
    (Split_no_sep "/" REPO Hr').
  rewrite length_app.
  pose proof (Split_nonempty "/" group) as Hlen.
  replace (List.length (Split group "/") + List.length [OWNER; REPO] =? 2)%nat
    with false; [reflexivity |].
  symmetry. apply Nat.eqb_neq. simpl. lia.
Qed.

(** The remote [git@gitlab.example.com:group/acme/widgets.git]. *)
Lemma X5_ssh_nested_path_rejected_witness :
  rejects More.sshNested "git@gitlab.example.com:group/acme/widgets.git".
Proof.
  apply (X5_ssh_nested_path_rejected More.sshNested "gitlab.example.com" "group"
           "acme" "widgets"); try reflexivity.
  exists ("git@gitlab.example.com:group/acme/widgets.git" ++ nl).
  split; reflexivity.
Defined.

(** X6: a remote URL that starts with neither [https://] nor [git@]
    ([ssh://], [http://], [git://], a local path) is a parse error that
    names the trimmed URL, in both files. *)
Theorem X6_other_schemes_rejected (w : World) (url : string) :
  remoteIs w url ->
  HasPrefix url "https://" = false ->
  HasPrefix url "git@" = false ->
  rejects w url.
Proof.
  intros Hremote H1 H2.
  apply (getGitHubRepoDetails_parsed w url "" "" Hremote).
  unfold ownerRepo. now rewrite H1, H2.
Qed.

(** The remote [ssh://git@github.com/acme/widgets.git]. *)
Lemma X6_other_schemes_rejected_witness :
  rejects More.sshScheme "ssh://git@github.com/acme/widgets.git".
Proof.
  apply (X6_other_schemes_rejected More.sshScheme); try reflexivity.
  exists ("ssh://git@github.com/acme/widgets.git" ++ nl). split; reflexivity.
Defined.

(** X7: an HTTPS remote that ends in a slash leaves the repository empty
    and is a parse error that names the URL. *)
Theorem X7_https_trailing_slash_rejected (w : World) (pre : string) :
  remoteIs w ("https://" ++ pre ++ "/") ->
  rejects w ("https://" ++ pre ++ "/").
Proof.
  intros Hremote.
  assert (Hparse : exists o, ownerRepo ("https://" ++ pre ++ "/") = Some (o, "")).
  { unfold ownerRepo. rewrite HasPrefix_append.
    replace ("https://" ++ pre ++ "/")
      with (("https://" ++ pre) ++ String "/" "")
      by (now rewrite !append_assoc).
    rewrite TrimSuffix_none by (now rewrite HasSuffix_behind).
    rewrite Split_append_any. cbn [Split].
    pose proof (Split_nonempty "/" ("https://" ++ pre)) as Hlen.
    destruct (Split ("https://" ++ pre) "/") as [|a l] eqn:E;
      [simpl in Hlen; lia |].
    clear Hlen.
    assert (Hlast : exists l0 o, ((a :: l) ++ [""])%list = (l0 ++ [o; ""])%list).
    { destruct (exists_last (l := a :: l)) as (l0 & o & ->); [discriminate |].
      exists l0, o. now rewrite <- app_assoc. }
    destruct Hlast as (l0 & o & ->).
    destruct (last_two l0 o "") as (H2 & H1 & Hlen).
    rewrite Hlen, H2, H1. now exists o. }
  destruct Hparse as (o & Hparse).
  apply (empty_owner_or_repo_rejected w _ o "" Hremote Hparse). now right.
Qed.

(** The remote [https://github.com/acme/widgets/]. *)
Lemma X7_https_trailing_slash_rejected_witness :
  rejects More.trailingSlash ("https://" ++ "github.com/acme/widgets" ++ "/").
Proof.
  apply (X7_https_trailing_slash_rejected More.trailingSlash "github.com/acme/widgets").
  exists ("https://github.com/acme/widgets/" ++ nl). split; reflexivity.
Defined.


Lemma getDefaultBranch_ok (w : World) (t : list event) (output : string) :
  git w symbolicRef = (output, None) ->
  Discover.getDefaultBranch w t
  = ((t ++ [Exec "git" symbolicRef])%list,
     Done (Some (lastSegment (TrimSpace output)), None)).
Proof.
  unfold symbolicRef. intros Hgit.
  cbv beta iota zeta delta [Discover.getDefaultBranch Output bind emit ret].
  rewrite Hgit. cbv beta iota zeta.
  pose proof (Split_nonempty "/" (TrimSpace output)) as Hlen.
  apply Nat.ltb_lt in Hlen as Hlt. rewrite Hlt.
  unfold lastSegment. rewrite (nth_error_last _ ""%string); [reflexivity |].
  intros E. rewrite E in Hlen. simpl in Hlen. lia.
Qed.



(** X9: each helper of the entry point with discovery returns either a
    pointer and no error, or no pointer and an error, and never panics;
    so one test of the error protects the dereference that follows. *)
Theorem X9_helpers_return_pointer_or_error
    (w : World) (t : list event) (base email token key : string) :
  pointerXorError (snd (Discover.getCurrentBranch w t))
  /\ pointerXorError (snd (Discover.getDefaultBranch w t))
  /\ pointerXorError (snd (getJiraIssueTitle w base email token key t))
  /\ match snd (Discover.getGitHubRepoDetails w t) with
     | Done (Some _, Some _, None) => True
     | Done (None, None, Some _) => True
     | _ => False
     end.
Proof.
  repeat split.
  - cbv beta iota zeta delta [Discover.getCurrentBranch Output bind emit ret snd].
    destruct (git w _) as [output [e |]]; exact I.
  - destruct (git w symbolicRef) as [output [e |]] eqn:Hgit.
    + unfold symbolicRef in Hgit.
      cbv beta iota zeta delta [Discover.getDefaultBranch Output bind emit ret snd].
      rewrite Hgit. exact I.
    + rewrite (getDefaultBranch_ok w t output Hgit). exact I.
  - cbv beta iota zeta delta [getJiraIssueTitle Do bind emit ret snd].
    destruct (NewRequest_err w _ _); [exact I |].
    destruct (http w _) as [resp | e]; [| exact I].
    destruct (negb _); [exact I |].
    destruct (ReadErr resp); [exact I |].
    destruct (Unmarshal_JIRAIssue w _) as [summary [e |]]; exact I.
  - cbv beta iota zeta delta [Discover.getGitHubRepoDetails Output bind emit ret snd].
    destruct (git w _) as [output [e |]]; [exact I |].
    pose proof (ownerRepo_total (TrimSpace output)) as Htotal.
    destruct (ownerRepo (TrimSpace output)) as [[owner repo] |]; [| congruence].
    destruct (String.eqb owner "" || String.eqb repo ""); exact I.
Qed.

(** ** [strings.TrimSpace] leaves no white space at either end *)

Lemma trimFront_first (back : bool) (s : string) :
  notSpace (firstByte (trimFront back s)).
Proof.
  remember (String.length s) as n eqn:Hn.
  revert s Hn. induction n as [n IH] using lt_wf_ind. intros s Hn.
  destruct s as [|c1 s1]; [exact I |].
  cbn [trimFront]. destruct (isSpace1 c1) eqn:E1.
  - apply (IH (String.length s1)); [simpl in Hn; lia | reflexivity].
  - destruct s1 as [|c2 s2]; [exact E1 |].
    destruct (if back then isSpace2 c2 c1 else isSpace2 c1 c2).
    + apply (IH (String.length s2)); [simpl in Hn; lia | reflexivity].
    + destruct s2 as [|c3 s3]; [exact E1 |].
      destruct (if back then isSpace3 c3 c2 c1 else isSpace3 c1 c2 c3).
      * apply (IH (String.length s3)); [simpl in Hn; lia | reflexivity].
      * exact E1.
Qed.

Lemma trimFront_suffix (back : bool) (s : string) :
  exists p, s = p ++ trimFront back s.
Proof.
  remember (String.length s) as n eqn:Hn.
  revert s Hn. induction n as [n IH] using lt_wf_ind. intros s Hn.
  destruct s as [|c1 s1]; [now exists "" |].
  cbn [trimFront]. destruct (isSpace1 c1).
  - destruct (IH (String.length s1) ltac:(simpl in Hn; lia) s1 eq_refl) as (p & Hp).
    exists (String c1 p). simpl. now rewrite <- Hp.
  - destruct s1 as [|c2 s2]; [now exists "" |].
    destruct (if back then isSpace2 c2 c1 else isSpace2 c1 c2).
    + destruct (IH (String.length s2) ltac:(simpl in Hn; lia) s2 eq_refl) as (p & Hp).
      exists (String c1 (String c2 p)). simpl. now rewrite <- Hp.
    + destruct s2 as [|c3 s3]; [now exists "" |].
      destruct (if back then isSpace3 c3 c2 c1 else isSpace3 c1 c2 c3).
      * destruct (IH (String.length s3) ltac:(simpl in Hn; lia) s3 eq_refl) as (p & Hp).
        exists (String c1 (String c2 (String c3 p))). simpl. now rewrite <- Hp.
      * now exists "".
Qed.

Lemma lastByte_append (p u : string) :
  u <> "" -> lastByte (p ++ u) = lastByte u.
Proof.
  intros Hu. induction p as [|c p IH]; [reflexivity |].
  simpl. destruct (p ++ u) eqn:E; [| exact IH].
  destruct p; simpl in E; [congruence | discriminate].
Qed.

Lemma reverse_cons (c : ascii) (s : string) :
  reverse (String c s) = reverse s ++ String c "".
Proof.
  unfold reverse. simpl.
  generalize (rev (list_ascii_of_string s)) as l.
  induction l as [|a l IH]; simpl; [reflexivity | now rewrite IH].
Qed.

Lemma lastByte_reverse (s : string) : lastByte (reverse s) = firstByte s.
Proof.
  destruct s as [|c s]; [reflexivity |].
  rewrite reverse_cons, lastByte_append by discriminate. reflexivity.
Qed.

Lemma firstByte_append (a b : string) :
  firstByte (a ++ b) = match a with
                       | EmptyString => firstByte b
                       | String c _ => Some c
                       end.
Proof. now destruct a. Qed.

Lemma firstByte_reverse (s : string) : firstByte (reverse s) = lastByte s.
Proof.
  induction s as [|c s IH]; [reflexivity |].
  rewrite reverse_cons, firstByte_append.
  destruct s as [|c' s']; [reflexivity |].
  change (lastByte (String c (String c' s'))) with (lastByte (String c' s')).
  rewrite <- IH. rewrite reverse_cons.
  destruct (reverse s'); reflexivity.
Qed.

Lemma TrimSpace_ends (s : string) :
  notSpace (firstByte (TrimSpace s)) /\ notSpace (lastByte (TrimSpace s)).
Proof.
  unfold TrimSpace. split.
  - rewrite firstByte_reverse.
    destruct (trimFront_suffix true (reverse (trimFront false s))) as (p & Hp).
    destruct (trimFront true (reverse (trimFront false s))) as [|c u] eqn:E;
      [exact I |].
    rewrite <- (lastByte_append p (String c u)) by discriminate.
    rewrite <- Hp, lastByte_reverse. apply trimFront_first.
  - rewrite lastByte_reverse. apply trimFront_first.
Qed.

(** X10: the current branch has no ASCII white space at either end:
    the line feed that [git rev-parse] prints, and any blanks around the
    name, are gone from what [getCurrentBranch] returns, in both files. *)
Theorem X10_current_branch_is_trimmed
    (w : World) (t : list event) (branch : string) :
  snd (Discover.getCurrentBranch w t) = Done (Some branch, None)
  \/ snd (CmdCliPr.getCurrentBranch w t) = Done (branch, None) ->
  notSpace (firstByte branch) /\ notSpace (lastByte branch).
Proof.
  intros [H | H]; revert H.
  - cbv beta iota zeta delta [Discover.getCurrentBranch Output bind emit ret snd].
    destruct (git w _) as [output [e |]]; [discriminate |].
    intros [= <-]. apply TrimSpace_ends.
  - cbv beta iota zeta delta [CmdCliPr.getCurrentBranch Output bind emit ret snd].
    destruct (git w _) as [output [e |]]; [discriminate |].
    intros [= <-]. apply TrimSpace_ends.
Qed.

(** The output [feature] followed by a line feed. *)
Lemma X10_current_branch_is_trimmed_witness :
  notSpace (firstByte "feature") /\ notSpace (lastByte "feature").
Proof.
  apply (X10_current_branch_is_trimmed (Sample.good []) [] "feature").
  left. reflexivity.
Defined.

(** ** More on the runs *)

(** Rewrites with every equation of the context that applies. *)
Ltac use_equations :=
  repeat match goal with
         | H : ?x = _ |- context [?x] => rewrite H
         end.

(** Closes a leaf whose context is impossible: an index out of range in
    the branch helpers. *)
Ltac impossible_leaf :=
  exfalso;
  match goal with
  | H : ownerRepo _ = None |- _ => exact (ownerRepo_total _ H)
  | H : (0 <? List.length (Split ?s ?c))%nat = false |- _ =>
      pose proof (Split_nonempty c s) as Hlen;
      apply Nat.ltb_ge in H; lia
  | H : nth_error (Split ?s ?c) _ = None |- _ =>
      pose proof (Split_nonempty c s) as Hlen;
      apply nth_error_None in H; lia
  end.

(** X11: [cmd/cli/pr/main.go] never panics: every run ends in success or
    in [log.Fatalf]. *)
Theorem X11_cmd_cli_pr_never_panics (w : World) :
  isPanic (snd (runOf CmdCliPrMain w)) = false.
Proof.
  unfold_main; run_main; try reflexivity; impossible_leaf.
Qed.

(** X12: the entry point with discovery panics in exactly one situation:
    the configuration is complete, [git rev-parse] fails, [-base] is
    absent or empty, and [git symbolic-ref] succeeds. *)
Theorem X12_discover_panics_exactly_when_error_is_overwritten (w : World) :
  isPanic (snd (runOf DiscoverMain w)) = true
  <-> configComplete w = true
      /\ snd (git w revParse) <> None
      /\ flag_String w "base" "" = ""
      /\ snd (git w symbolicRef) = None.
Proof.
  unfold configComplete, envIncomplete, revParse, symbolicRef.
  unfold_main; run_main.
  all: try impossible_leaf.
  all: repeat match goal with
              | H : String.eqb _ _ = true |- _ => apply String.eqb_eq in H
              | H : String.eqb _ _ = false |- _ => apply String.eqb_neq in H
              end.
  all: use_equations; cbn [isPanic negb andb fst snd].
  all: split; [try discriminate | intros (Hc & Hr & Hb & Hs)];
    try discriminate; try congruence.
  all: repeat split; try congruence; try discriminate.
Qed.

(** X13: a run sends at most two HTTP requests and repeats none: nothing,
    or the JIRA GET alone, or the JIRA GET followed by one POST.  The GET
    goes to [{JIRA_BASE_URL}/rest/api/3/issue/{key}] with basic
    authentication by [JIRA_EMAIL] and [JIRA_API_TOKEN], the header
    [Accept: application/json] and no body. *)
Theorem X13_requests_of_a_run (e : entry) (w : World) :
  httpRequests (fst (runOf e w)) = []
  \/ httpRequests (fst (runOf e w)) = [jiraRequest w]
  \/ exists post,
       httpRequests (fst (runOf e w)) = [jiraRequest w; post]
       /\ Method post = "POST".
Proof.
  unfold jiraRequest.
  destruct e; unfold_main; run_main; cbn [httpRequests];
    first [ left; reflexivity
          | right; left; reflexivity
          | right; right; eexists; split; reflexivity ].
Qed.

(** X14: every POST goes to the pulls endpoint of the owner and
    repository parsed from the remote URL, carries the GitHub token as a
    bearer token and no basic authentication; the entry point with
    discovery adds the [Accept] and API-version headers of the GitHub
    REST API, [cmd/cli/pr/main.go] a JSON content type. *)
Theorem X14_pull_request_is_posted_to_the_parsed_repository
    (e : entry) (w : World) (req : Request) :
  In req (requests "POST" (fst (runOf e w))) ->
  (exists owner repo,
      remotePair w = Some (owner, repo) /\ URL req = githubURL owner repo)
  /\ BasicAuth req = None
  /\ header "Authorization" req = Some ("Bearer " ++ Getenv w "GITHUB_TOKEN")
  /\ match e with
     | DiscoverMain =>
         header "Accept" req = Some "application/vnd.github+json"
         /\ header "X-GitHub-Api-Version" req = Some "2022-11-28"
     | CmdCliPrMain => header "Content-Type" req = Some "application/json"
     end.
Proof.
  unfold remotePair, remoteURL, githubURL. revert req.
  destruct e; unfold_main; run_main; each_post.
  all: use_equations; cbn [fst]; use_equations.
  all: split; [eexists; eexists; split; reflexivity |].
  all: repeat split.
Qed.

(** With everything in order both entry points post to
    [https://api.github.com/repos/acme/widgets/pulls]. *)
Lemma X14_pull_request_is_posted_to_the_parsed_repository_witness :
  exists req,
    In req (requests "POST" (fst (runOf DiscoverMain (Sample.good [("issue", "PROJ-42")]))))
    /\ URL req = "https://api.github.com/repos/acme/widgets/pulls"
    /\ header "Authorization" req = Some "Bearer gh-token".
Proof.
  eexists. split; [vm_compute; left; reflexivity |].
  match goal with
  | |- URL ?r = _ /\ _ =>
      assert (Hin : In r (requests "POST"
                     (fst (runOf DiscoverMain (Sample.good [("issue", "PROJ-42")])))))
        by (vm_compute; left; reflexivity);
      destruct (X14_pull_request_is_posted_to_the_parsed_repository
                  DiscoverMain (Sample.good [("issue", "PROJ-42")]) r Hin)
        as (_ & _ & Hauth & _)
  end.
  split; [reflexivity | exact Hauth].
Defined.

(** X15: the entry point with discovery always opens a draft pull
    request; the payload of [cmd/cli/pr/main.go] has no [draft] member.
    In both, the head of the pull request is the trimmed output of
    [git rev-parse --abbrev-ref HEAD] as [encoding/json] transmits it:
    unchanged when it is valid UTF-8, with U+FFFD for every invalid byte
    otherwise. *)
Theorem X15_draft_and_head_of_the_payload
    (e : entry) (w : World) (req : Request) :
  In req (requests "POST" (fst (runOf e w))) ->
  field "head" (payload req) = Some (JString (coerceUTF8 (currentBranch w)))
  /\ (ValidString (currentBranch w) = true ->
      field "head" (payload req) = Some (JString (currentBranch w)))
  /\ field "draft" (payload req)
     = match e with
       | DiscoverMain => Some (JBool true)
       | CmdCliPrMain => None
       end.
Proof.
  intros Hin.
  assert (H : field "head" (payload req) = Some (JString (coerceUTF8 (currentBranch w)))
              /\ field "draft" (payload req)
                 = match e with
                   | DiscoverMain => Some (JBool true)
                   | CmdCliPrMain => None
                   end).
  { revert req Hin. unfold currentBranch, revParse.
    destruct e; unfold_main; run_main; each_post.
    all: use_equations; split; reflexivity. }
  destruct H as [Hhead Hdraft].
  split; [exact Hhead | split; [| exact Hdraft]].
  intros Hvalid. now rewrite Hhead, (coerceUTF8_valid _ Hvalid).
Qed.

(** The payload of the sample run: head [feature], draft. *)
Lemma X15_draft_and_head_of_the_payload_witness :
  exists req,
    In req (requests "POST" (fst (runOf DiscoverMain (Sample.good [("issue", "PROJ-42")]))))
    /\ field "head" (payload req) = Some (JString "feature")
    /\ field "draft" (payload req) = Some (JBool true).
Proof.
  eexists. split; [vm_compute; left; reflexivity |].
  match goal with
  | |- field _ (payload ?r) = _ /\ _ =>
      assert (Hin : In r (requests "POST"
                     (fst (runOf DiscoverMain (Sample.good [("issue", "PROJ-42")])))))
        by (vm_compute; left; reflexivity);
      destruct (X15_draft_and_head_of_the_payload
                  DiscoverMain (Sample.good [("issue", "PROJ-42")]) r Hin)
        as (_ & Hhead & Hdraft)
  end.
  split; [apply Hhead; reflexivity | exact Hdraft].
Defined.

(** X16: a successful run reports its progress in order: the source
    branch, the owner and repository, the fetched summary, the success
    line and, in the entry point with discovery, the URL of the pull
    request; and it spawned [git rev-parse], then [git symbolic-ref] if
    the base had to be discovered, then [git config], and nothing else. *)
Theorem X16_progress_of_a_successful_run (e : entry) (w : World) :
  snd (runOf e w) = Done tt ->
  exists owner repo summary resp,
    remotePair w = Some (owner, repo)
    /\ fetched w (fst (runOf e w)) summary
    /\ answered w (fst (runOf e w)) resp
    /\ stdout (fst (runOf e w))
       = List.app
           [ "Using current branch as source branch: " ++ currentBranch w ++ nl;
             "GitHub Owner: " ++ owner ++ ", Repo: " ++ repo ++ nl;
             "Fetched JIRA issue title: " ++ summary ++ nl ]
           (stdout (successLines e w resp))
    /\ subprocesses (fst (runOf e w))
       = match e with
         | DiscoverMain =>
             if String.eqb (flag_String w "base" "") ""
             then [revParse; symbolicRef; remoteURL]
             else [revParse; remoteURL]
         | CmdCliPrMain => [revParse; remoteURL]
         end.
Proof.
  unfold successLines, fetched, answered, remotePair, currentBranch,
    remoteURL, revParse, symbolicRef.
  destruct e; unfold_main; run_main; intros Hdone; try discriminate Hdone.
  all: use_equations; cbn [fst]; use_equations.
  all: do 4 eexists.
  all: split; [reflexivity |].
  all: split;
    [ eexists; eexists; split;
      [ cbn [requests Method String.eqb Ascii.eqb Bool.eqb In]; left; reflexivity
      | split; eassumption ] |].
  all: split;
    [ eexists; split;
      [ cbn [requests Method String.eqb Ascii.eqb Bool.eqb In]; left; reflexivity
      | eassumption ] |].
  all: use_equations; split; reflexivity.
Qed.

(** The successful sample run. *)
Lemma X16_progress_of_a_successful_run_witness :
  exists owner repo summary resp,
    remotePair (Sample.good [("issue", "PROJ-42")]) = Some (owner, repo)
    /\ fetched (Sample.good [("issue", "PROJ-42")])
               (fst (runOf CmdCliPrMain (Sample.good [("issue", "PROJ-42")]))) summary
    /\ answered (Sample.good [("issue", "PROJ-42")])
                (fst (runOf CmdCliPrMain (Sample.good [("issue", "PROJ-42")]))) resp
    /\ stdout (fst (runOf CmdCliPrMain (Sample.good [("issue", "PROJ-42")])))
       = List.app
           [ "Using current branch as source branch: "
             ++ currentBranch (Sample.good [("issue", "PROJ-42")]) ++ nl;
             "GitHub Owner: " ++ owner ++ ", Repo: " ++ repo ++ nl;
             "Fetched JIRA issue title: " ++ summary ++ nl ]
           (stdout (successLines CmdCliPrMain (Sample.good [("issue", "PROJ-42")]) resp))
    /\ subprocesses (fst (runOf CmdCliPrMain (Sample.good [("issue", "PROJ-42")])))
       = [revParse; remoteURL].
Proof.
  apply (X16_progress_of_a_successful_run CmdCliPrMain (Sample.good [("issue", "PROJ-42")])).
  reflexivity.
Defined.

(** X17: a run spawns [git rev-parse] first if the configuration is
    complete, and does nothing at all otherwise: no check of the
    configuration happens after the first subprocess. *)
Theorem X17_first_step_is_rev_parse (e : entry) (w : World) :
  (configComplete w = true
   <-> exists rest, fst (runOf e w) = Exec "git" revParse :: rest)
  /\ (configComplete w = false <-> fst (runOf e w) = []).
Proof.
  unfold configComplete, envIncomplete, revParse.
  destruct e; unfold_main; run_main; use_equations; cbn [negb andb].
  all: split; split; intros H;
    first [ reflexivity | discriminate H
          | eexists; reflexivity
          | destruct H as (rest & H); discriminate H ].
Qed.

(** X18: the failure of [git rev-parse] is reported and ends the run
    right there, before anything else is spawned or sent, in
    [cmd/cli/pr/main.go] always and in the entry point with discovery
    whenever [-base] is given and not empty. *)
Theorem X18_rev_parse_failure_is_reported (e : entry) (w : World) (msg : string) :
  configComplete w = true ->
  snd (git w revParse) = Some msg ->
  e = CmdCliPrMain \/ flag_String w "base" "" <> "" ->
  runOf e w
  = ([Exec "git" revParse],
     Fatal ("Error getting current branch: "
            ++ "failed to get current branch: " ++ msg)).
Proof.
  unfold configComplete, envIncomplete, revParse.
  intros Hc Hrev Hbase.
  apply andb_true_iff in Hc as [Henv Hkey].
  apply negb_true_iff in Henv, Hkey.
  destruct (git w ["rev-parse"; "--abbrev-ref"; "HEAD"]) as [out err] eqn:Hgit.
  cbn [snd] in Hrev. subst err.
  destruct e; unfold_main; rewrite Henv, Hkey, Hgit; cbv beta iota zeta.
  - destruct Hbase as [Hb | Hb]; [discriminate Hb |].
    apply nonempty_eqb in Hb. rewrite Hb. reflexivity.
  - reflexivity.
Qed.

(** [git rev-parse] fails with [-base release]: both entry points report
    it. *)
Lemma X18_rev_parse_failure_is_reported_witness :
  runOf DiscoverMain More.revParseFailsWithBase
  = ([Exec "git" revParse],
     Fatal ("Error getting current branch: "
            ++ "failed to get current branch: " ++ "exit status 128")).
Proof.
  apply (X18_rev_parse_failure_is_reported DiscoverMain More.revParseFailsWithBase);
    [reflexivity | reflexivity | right; discriminate].
Defined.

(** X19: no HTTP request is made before the local repository is known:
    a run that sends any request got the current branch from
    [git rev-parse] and a non-empty owner and repository from
    [git config], both without error. *)
Theorem X19_requests_only_after_git (e : entry) (w : World) (req : Request) :
  In req (httpRequests (fst (runOf e w))) ->
  snd (git w revParse) = None
  /\ snd (git w remoteURL) = None
  /\ exists owner repo,
       remotePair w = Some (owner, repo) /\ owner <> "" /\ repo <> "".
Proof.
  unfold remotePair, revParse, remoteURL. revert req.
  destruct e; unfold_main; run_main; intros req Hin; cbn [httpRequests In] in Hin;
    try contradiction Hin.
  all: clear Hin.
  all: match goal with
       | H : _ || _ = false |- _ =>
           apply orb_false_elim in H as [Ho Hr];
           apply String.eqb_neq in Ho, Hr
       end.
  all: use_equations; cbn [fst snd]; use_equations.
  all: split; [reflexivity | split; [reflexivity |]].
  all: eexists; eexists; split; [reflexivity | split; assumption].
Qed.

(** The sample run sends its GET after both git queries succeeded. *)
Lemma X19_requests_only_after_git_witness :
  snd (git (Sample.good [("issue", "PROJ-42")]) revParse) = None
  /\ snd (git (Sample.good [("issue", "PROJ-42")]) remoteURL) = None
  /\ exists owner repo,
       remotePair (Sample.good [("issue", "PROJ-42")]) = Some (owner, repo)
       /\ owner <> "" /\ repo <> "".
Proof.
  apply (X19_requests_only_after_git DiscoverMain (Sample.good [("issue", "PROJ-42")])
           (jiraRequest (Sample.good [("issue", "PROJ-42")]))).
  vm_compute. left. reflexivity.
Defined.

(** X20: no pull request is posted unless the lookup succeeded: a run
    that sends the POST got status 200 from JIRA, read the body without
    error and decoded it without error; the title it sends is the decoded
    summary, after the bracketed key in the entry point with discovery,
    as [encoding/json] transmits it. *)
Theorem X20_post_only_after_successful_lookup
    (e : entry) (w : World) (req : Request) :
  In req (requests "POST" (fst (runOf e w))) ->
  exists resp summary,
    http w (jiraRequest w) = inl resp
    /\ StatusCode resp = 200%Z
    /\ ReadErr resp = None
    /\ Unmarshal_JIRAIssue w (RespBody resp) = (summary, None)
    /\ field "title" (payload req)
       = Some (JString
                 (coerceUTF8
                    match e with
                    | DiscoverMain =>
                        "[" ++ flag_String w "issue" "" ++ "] " ++ summary
                    | CmdCliPrMain => summary
                    end)).
Proof.
  unfold jiraRequest. revert req.
  destruct e; unfold_main; run_main; each_post.
  all: match goal with
       | H : negb (StatusCode ?r =? 200)%Z = false |- _ =>
           apply negb_false_iff, Z.eqb_eq in H
       end.
  all: eexists; eexists; repeat split; eassumption || reflexivity.
Qed.

(** The sample run of the entry point with discovery posts the title
    [[PROJ-42] Fix login bug] after a 200 from JIRA. *)
Lemma X20_post_only_after_successful_lookup_witness :
  exists req resp summary,
    In req (requests "POST"
              (fst (runOf DiscoverMain (Sample.good [("issue", "PROJ-42")]))))
    /\ http (Sample.good [("issue", "PROJ-42")])
            (jiraRequest (Sample.good [("issue", "PROJ-42")])) = inl resp
    /\ StatusCode resp = 200%Z
    /\ ReadErr resp = None
    /\ Unmarshal_JIRAIssue (Sample.good [("issue", "PROJ-42")]) (RespBody resp)
       = (summary, None)
    /\ field "title" (payload req)
       = Some (JString
                 (coerceUTF8
                    ("[" ++ flag_String (Sample.good [("issue", "PROJ-42")]) "issue" ""
                     ++ "] " ++ summary)))
    /\ field "title" (payload req) = Some (JString "[PROJ-42] Fix login bug").
Proof.
  assert (Hin : exists req,
             In req (requests "POST"
                       (fst (runOf DiscoverMain (Sample.good [("issue", "PROJ-42")]))))
             /\ field "title" (payload req) = Some (JString "[PROJ-42] Fix login bug")).
  { eexists. split; [vm_compute; left; reflexivity | reflexivity]. }
  destruct Hin as (req & Hin & Htitle).
  destruct (X20_post_only_after_successful_lookup DiscoverMain
              (Sample.good [("issue", "PROJ-42")]) req Hin)
    as (resp & summary & H1 & H2 & H3 & H4 & H5).
  exists req, resp, summary. repeat split; assumption.
Defined.

(** X21: [cmd/cli/pr/main.go] never asks [git] for the default branch:
    the base it sends is the value of [-base], which is ["main"] when the
    flag is absent, as [encoding/json] transmits it (unchanged when it is
    valid UTF-8); and a run that succeeds has sent it. *)
Theorem X21_cmd_cli_pr_base_is_the_flag (w : World) :
  ~ spawnsSymbolicRef (fst (runOf CmdCliPrMain w))
  /\ posts "base" (JString (coerceUTF8 (flag_String w "base" "main")))
           (fst (runOf CmdCliPrMain w))
  /\ (snd (runOf CmdCliPrMain w) = Done tt ->
      exists req,
        In req (requests "POST" (fst (runOf CmdCliPrMain w)))
        /\ field "base" (payload req)
           = Some (JString (coerceUTF8 (flag_String w "base" "main"))))
  /\ (ValidString (flag_String w "base" "main") = true ->
      posts "base" (JString (flag_String w "base" "main"))
            (fst (runOf CmdCliPrMain w))).
Proof.
  assert (Hposts : posts "base" (JString (coerceUTF8 (flag_String w "base" "main")))
                         (fst (runOf CmdCliPrMain w)))
    by (unfold posts; unfold_main; run_main; each_post; reflexivity).
  split; [| split; [exact Hposts | split]].
  - unfold_main; run_main; no_such_event.
  - unfold_main; run_main; intros Hdone; try discriminate Hdone.
    all: eexists; split;
      [ cbn [requests Method String.eqb Ascii.eqb Bool.eqb In]; left; reflexivity
      | reflexivity ].
  - intros Hvalid. now rewrite (coerceUTF8_valid _ Hvalid) in Hposts.
Qed.

(** Without [-base] the successful sample run of [cmd/cli/pr/main.go]
    posts the base [main]. *)
Lemma X21_cmd_cli_pr_base_is_the_flag_witness :
  exists req,
    In req (requests "POST"
              (fst (runOf CmdCliPrMain (Sample.good [("issue", "PROJ-42")]))))
    /\ field "base" (payload req) = Some (JString "main").
Proof.
  destruct (X21_cmd_cli_pr_base_is_the_flag (Sample.good [("issue", "PROJ-42")]))
    as (_ & _ & Hsent & _).
  destruct (Hsent eq_refl) as (req & Hin & Hbase).
  exists req. split; [exact Hin | exact Hbase].
Defined.

(** X22: the entry point with discovery asks [git] for the default branch
    exactly when the configuration is complete and [-base] is absent or
    empty, whether or not [git rev-parse] succeeded before. *)
Theorem X22_discovery_runs_exactly_when_base_is_empty (w : World) :
  spawnsSymbolicRef (fst (runOf DiscoverMain w))
  <-> configComplete w = true /\ flag_String w "base" "" = "".
Proof.
  unfold configComplete, envIncomplete, spawnsSymbolicRef.
  unfold_main; run_main.
  all: use_equations; cbn [negb andb].
  all: repeat match goal with
              | H : String.eqb _ _ = true |- _ => apply String.eqb_eq in H
              | H : String.eqb _ _ = false |- _ => apply String.eqb_neq in H
              end.
  all: split;
    [ intros (name & rest & H); cbn [In] in H;
      first [ split; [reflexivity | assumption]
            | exfalso;
              repeat (destruct H as [H | H]; [discriminate H |]); exact H ]
    | intros [Hc Hb]; first [discriminate Hc | congruence | idtac] ].
  all: exists "git", ["refs/remotes/origin/HEAD"]; cbn [In]; tauto.
Qed.

(** X23: a transport error is fatal and is not retried: when the client
    returns an error for a request of the run, that request is the last
    one, and the run ends in [log.Fatalf] with the text of the error,
    under the lookup's prefix for the GET and the submission's for the
    POST. *)
Theorem X23_transport_error_is_fatal
    (e : entry) (w : World) (req : Request) (msg : string) :
  In req (httpRequests (fst (runOf e w))) ->
  http w req = inr msg ->
  List.last (httpRequests (fst (runOf e w))) req = req
  /\ snd (runOf e w)
     = Fatal (if String.eqb (Method req) "GET"
              then "Error fetching JIRA issue: "
                   ++ "Error fetching JIRA issue: " ++ msg
              else "Error sending GitHub PR request: " ++ msg).
Proof.
  revert req.
  destruct e; unfold_main; run_main; intros req Hin Hhttp;
    cbn [httpRequests In] in Hin.
  all: repeat (destruct Hin as [Hin | Hin];
               [ symmetry in Hin; subst req;
                 try match goal with
                     | H : http _ _ = _ |- _ =>
                         rewrite Hhttp in H;
                         first [discriminate H | injection H as <-]
                     end |]);
    try contradiction Hin.
  all: split; reflexivity.
Qed.

(** GitHub cannot be reached. *)
Lemma X23_transport_error_is_fatal_witness :
  snd (runOf DiscoverMain More.unreachable)
  = Fatal ("Error sending GitHub PR request: " ++ "dial tcp: connection refused").
Proof.
  assert (Hin : exists req,
             In req (httpRequests (fst (runOf DiscoverMain More.unreachable)))
             /\ Method req = "POST").
  { eexists. split; [vm_compute; right; left; reflexivity | reflexivity]. }
  destruct Hin as (req & Hin & Hm).
  destruct (X23_transport_error_is_fatal DiscoverMain More.unreachable req
              "dial tcp: connection refused" Hin) as [_ H].
  - unfold More.unreachable. cbn [http]. now rewrite Hm.
  - rewrite Hm in H. exact H.
Defined.

(** X24: a remote URL that [getGitHubRepoDetails] rejects ends the run
    with the parse error, which names the URL, before any HTTP request
    is made. *)
Theorem X24_rejected_remote_stops_the_run (e : entry) (w : World) (url : string) :
  In (Exec "git" remoteURL) (fst (runOf e w)) ->
  remoteIs w url ->
  rejects w url ->
  snd (runOf e w)
  = Fatal ("Error fetching GitHub repo details: "
           ++ "could not parse owner and repo from URL: " ++ url)
  /\ httpRequests (fst (runOf e w)) = [].
Proof.
  intros Hin (output & Hgit & <-) Hrej. revert Hin.
  destruct (Hrej []) as [_ Hcmd]. clear Hrej. revert Hcmd.
  unfold remoteURL in *.
  cbv beta iota zeta delta [CmdCliPr.getGitHubRepoDetails Output bind emit ret snd].
  rewrite Hgit. cbv beta iota zeta.
  pose proof (ownerRepo_total (TrimSpace output)) as Htotal.
  destruct (ownerRepo (TrimSpace output)) as [[owner repo] |] eqn:Hparse;
    [| congruence].
  destruct (String.eqb owner "" || String.eqb repo "") eqn:Hempty;
    [intros _ | discriminate].
  destruct e; unfold_main.
  all: repeat first
        [ rewrite Hgit | rewrite Hparse | rewrite Hempty
        | progress cbv beta iota zeta delta [app fst snd]
        | step ].
  all: intros Hin; cbn [In] in Hin;
    repeat (destruct Hin as [Hin | Hin]; [discriminate Hin |]);
    try contradiction Hin.
  all: split; reflexivity.
Qed.

(** The remote [https://github.com/acme/widgets/]. *)
Lemma X24_rejected_remote_stops_the_run_witness :
  snd (runOf DiscoverMain More.trailingSlash)
  = Fatal ("Error fetching GitHub repo details: "
           ++ "could not parse owner and repo from URL: "
           ++ "https://github.com/acme/widgets/")
  /\ httpRequests (fst (runOf DiscoverMain More.trailingSlash)) = [].
Proof.
  apply (X24_rejected_remote_stops_the_run DiscoverMain More.trailingSlash).
  - vm_compute. tauto.
  - exists ("https://github.com/acme/widgets/" ++ nl). split; reflexivity.
  - intros t. split; reflexivity.
Defined.

(** X25: a URL that [http.NewRequest] refuses is never requested and the
    run cannot succeed: this holds for the JIRA URL with the GET and for
    the pulls URL of the parsed repository with the POST. *)
Theorem X25_unparsable_url_is_never_requested
    (e : entry) (w : World) (method url msg : string) :
  NewRequest_err w method url = Some msg ->
  (method = "GET" /\ url = URL (jiraRequest w))
  \/ (method = "POST"
      /\ exists owner repo,
           remotePair w = Some (owner, repo) /\ url = githubURL owner repo) ->
  requests method (fst (runOf e w)) = []
  /\ snd (runOf e w) <> Done tt.
Proof.
  unfold jiraRequest, remotePair, remoteURL, githubURL. cbn [URL].
  intros Herr [[-> ->] | [-> (owner & repo & Hpair & ->)]]; revert Herr;
    try revert Hpair.
  - destruct e; unfold_main; run_main; intros Herr;
      try (rewrite Herr in *; discriminate);
      split; (reflexivity || discriminate).
  - destruct e; unfold_main; run_main; cbn [fst]; intros Hpair Herr;
      try (split; [reflexivity | discriminate]).
    all: injection Hpair as -> ->.
    all: match goal with
         | H : NewRequest_err _ "POST" _ = None |- _ =>
             rewrite Herr in H; discriminate H
         end.
Qed.

(** With a base URL that does not parse nothing is requested. *)
Lemma X25_unparsable_url_is_never_requested_witness :
  requests "GET"
    (fst (runOf DiscoverMain
            {| flags := Sample.lookup [("issue", "PROJ-42")];
               environ := Sample.lookup Sample.env;
               git := Sample.gitOf ("feature" ++ nl, None)
                                   "https://github.com/acme/widgets.git";
               http := Sample.httpOf Sample.ok200 Sample.created;
               NewRequest_err := fun _ _ => Some "invalid URL";
               Unmarshal_JIRAIssue := fun _ => ("", None);
               Unmarshal_PullRequestResponse := fun _ => ("", None) |})) = [].
Proof.
  refine (proj1 (X25_unparsable_url_is_never_requested DiscoverMain _ "GET"
                   "https://jira.example.com/rest/api/3/issue/PROJ-42"
                   "invalid URL" _ _)).
  - reflexivity.
  - left. split; reflexivity.
Defined.

(** X26: after a 200 from JIRA the lookup can still fail, when reading
    the body fails and when the body does not decode; the run then ends
    in [log.Fatalf] with that error and posts nothing. *)
Theorem X26_unreadable_issue_stops_the_run
    (e : entry) (w : World) (resp : Response) (text msg : string) :
  In (jiraRequest w) (httpRequests (fst (runOf e w))) ->
  http w (jiraRequest w) = inl resp ->
  StatusCode resp = 200%Z ->
  (ReadErr resp = Some msg /\ text = "Error reading JIRA response body: ")
  \/ (ReadErr resp = None
      /\ snd (Unmarshal_JIRAIssue w (RespBody resp)) = Some msg
      /\ text = "Error unmarshaling JIRA response: ") ->
  snd (runOf e w) = Fatal ("Error fetching JIRA issue: " ++ text ++ msg)
  /\ requests "POST" (fst (runOf e w)) = [].
Proof.
  unfold jiraRequest.
  destruct e; unfold_main; run_main; intros Hin Hhttp Hcode Hfail;
    cbn [httpRequests In] in Hin.
  all: repeat (destruct Hin as [Hin | Hin]; [clear Hin |]);
    try contradiction Hin; try discriminate Hin.
  all: first [discriminate Hhttp | injection Hhttp as ->].
  all: try match goal with
           | H : negb (StatusCode _ =? 200)%Z = true |- _ =>
               rewrite Hcode in H; discriminate H
           end.
  all: destruct Hfail as [[Hread ->] | (Hread & Hdec & ->)];
    try congruence.
  all: try match goal with
           | H : Unmarshal_JIRAIssue _ _ = _ |- _ =>
               rewrite H in Hdec; cbn [snd] in Hdec
           end;
    try congruence.
  all: split; [congruence || reflexivity | reflexivity].
Qed.

(** JIRA answers 200 with a body that does not decode. *)
Lemma X26_unreadable_issue_stops_the_run_witness :
  snd (runOf CmdCliPrMain
         {| flags := Sample.lookup [("issue", "PROJ-42")];
            environ := Sample.lookup Sample.env;
            git := Sample.gitOf ("feature" ++ nl, None)
                                "https://github.com/acme/widgets.git";
            http := Sample.httpOf Sample.ok200 Sample.created;
            NewRequest_err := fun _ _ => None;
            Unmarshal_JIRAIssue := fun _ => ("", Some "unexpected end of JSON input");
            Unmarshal_PullRequestResponse := fun _ => ("", None) |})
  = Fatal ("Error fetching JIRA issue: " ++ "Error unmarshaling JIRA response: "
           ++ "unexpected end of JSON input").
Proof.
  refine (proj1 (X26_unreadable_issue_stops_the_run CmdCliPrMain _ Sample.ok200
                   "Error unmarshaling JIRA response: "
                   "unexpected end of JSON input" _ _ _ _)).
  - vm_compute. left. reflexivity.
  - reflexivity.
  - reflexivity.
  - right. repeat split.
Defined.

(** X27: in the entry point with discovery, when the base has to be
    discovered and [git symbolic-ref] fails, the run ends after the two
    subprocesses in [log.Fatalf] with that failure, whether or not
    [git rev-parse] succeeded. *)
Theorem X27_default_branch_failure_is_fatal (w : World) (msg : string) :
  configComplete w = true ->
  flag_String w "base" "" = "" ->
  snd (git w symbolicRef) = Some msg ->
  runOf DiscoverMain w
  = ([Exec "git" revParse; Exec "git" symbolicRef],
     Fatal ("Error getting current branch: "
            ++ "failed to get default branch: " ++ msg)).
Proof.
  unfold configComplete, envIncomplete, revParse, symbolicRef.
  intros Hc Hbase Hsym.
  apply andb_true_iff in Hc as [Henv Hkey].
  apply negb_true_iff in Henv, Hkey.
  destruct (git w ["symbolic-ref"; "refs/remotes/origin/HEAD"]) as [out2 err2] eqn:Hgit2.
  cbn [snd] in Hsym. subst err2.
  unfold_main. rewrite Henv, Hkey, Hbase.
  change (String.eqb "" "") with true.
  destruct (git w ["rev-parse"; "--abbrev-ref"; "HEAD"]) as [out1 [err1 |]];
    cbv beta iota zeta; rewrite Hgit2; reflexivity.
Qed.

(** No remote HEAD is set. *)
Lemma X27_default_branch_failure_is_fatal_witness :
  runOf DiscoverMain
    {| flags := Sample.lookup [("issue", "PROJ-42")];
       environ := Sample.lookup Sample.env;
       git := fun args =>
                match args with
                | ["rev-parse"; "--abbrev-ref"; "HEAD"] => ("feature" ++ nl, None)
                | _ => ("", Some "exit status 128")
                end;
       http := Sample.httpOf Sample.ok200 Sample.created;
       NewRequest_err := fun _ _ => None;
       Unmarshal_JIRAIssue := fun _ => ("", None);
       Unmarshal_PullRequestResponse := fun _ => ("", None) |}
  = ([Exec "git" revParse; Exec "git" symbolicRef],
     Fatal ("Error getting current branch: "
            ++ "failed to get default branch: " ++ "exit status 128")).
Proof.
  refine (X27_default_branch_failure_is_fatal _ "exit status 128" _ _ _);
    reflexivity.
Defined.

(** X28: the payload is a JSON object with the members [title], [body],
    [head], [base] and, in the entry point with discovery, [draft], in
    that order and nothing else. *)
Theorem X28_members_of_the_payload (e : entry) (w : World) (req : Request) :
  In req (requests "POST" (fst (runOf e w))) ->
  map fst (payload req)
  = match e with
    | DiscoverMain => ["title"; "body"; "head"; "base"; "draft"]
    | CmdCliPrMain => ["title"; "body"; "head"; "base"]
    end.
Proof.
  revert req. destruct e; unfold_main; run_main; each_post; reflexivity.
Qed.

(** The payload of the sample run of [cmd/cli/pr/main.go]. *)
Lemma X28_members_of_the_payload_witness :
  exists req,
    In req (requests "POST" (fst (runOf CmdCliPrMain (Sample.good [("issue", "PROJ-42")]))))
    /\ map fst (payload req) = ["title"; "body"; "head"; "base"].
Proof.
  eexists. split; [vm_compute; left; reflexivity |].
  match goal with
  | |- map fst (payload ?r) = _ =>
      apply (X28_members_of_the_payload CmdCliPrMain
               (Sample.good [("issue", "PROJ-42")]) r)
  end.
  vm_compute. left. reflexivity.
Defined.
